(** * Presentation coach: frame classifier, analysis engine, result broadcaster

  A shallow embedding of [backend/speech_coach_processor.py] and
  [backend/websocket_server.py], with the properties of the design
  document proved about it.

  Numbers.  Key points are numpy scalars and the thresholds Python floats.
  They are read here as exact rationals ([Q]); rounding is not modelled.
  What is kept of IEEE arithmetic is the one place where it differs from a
  field in a way the graders can observe: a numpy division by zero does not
  raise, it yields an infinity or a NaN, and every ordered comparison with a
  NaN is false. *)

From Stdlib Require Import ZArith QArith Qabs Reals Qreals String List Bool Lia Lra Lqa.
From stdpp Require Import base option list gmap sets.

Local Open Scope Q_scope.

(** ** Numeric values as the graders see them *)

Module Np.

(** The result of a numpy division: finite, or one of the three special
    values. *)
Inductive value : Type :=
| Fin (q : Q)
| PInf
| NInf
| NaN.

Definition Qlt_bool (a b : Q) : bool := negb (Qle_bool b a).

(** [a / b] for finite operands; [b] is never a negative zero here (it is
    an [int], an [abs] or an [int / 2]). *)
Definition div (a b : Q) : value :=
  if Qeq_bool b 0 then
    if Qeq_bool a 0 then NaN
    else if Qlt_bool 0 a then PInf else NInf
  else Fin (a / b).

(** [x < y] *)
Definition lt (x y : value) : bool :=
  match x, y with
  | NaN, _ | _, NaN => false
  | Fin a, Fin b => Qlt_bool a b
  | PInf, _ => false
  | _, NInf => false
  | NInf, _ => true
  | Fin _, PInf => true
  end.

Definition is_lt (x y : value) : Prop := lt x y = true.

(** [np.sqrt] of a non-negative rational.  [Q] has no square roots and the
    graders only ever compare a deviation with a constant, so the root is
    kept symbolic and compared through its square. *)
Record root : Type := sqrt { radicand : Q }.

(** [c < sqrt r] *)
Definition lt_root (c : Q) (r : root) : bool :=
  if Qlt_bool c 0 then true else Qlt_bool (c * c) (radicand r).

End Np.

Coercion Np.Fin : Q >-> Np.value.

Declare Scope np_scope.
Delimit Scope np_scope with np.
Infix "<?" := Np.lt (at level 70, no associativity) : np_scope.
Infix "<" := Np.is_lt : np_scope.

(** ** Exceptions *)

(** The exception classes the two modules distinguish in their handlers;
    every one of them derives from [Exception].  [str] is the text that
    [str(e)] gives. *)
Inductive Exn : Type :=
| TimeoutError
| RuntimeError (msg : string)
| ConnectionClosed
| BinasciiError (msg : string)
| OtherError (msg : string).

Definition str (e : Exn) : string :=
  match e with
  | TimeoutError => ""
  | ConnectionClosed => "connection closed"
  | RuntimeError msg | BinasciiError msg | OtherError msg => msg
  end.

(** The outcome of a call: a value, or an exception on its way up. *)
Inductive Result (T : Type) : Type :=
| Ok (v : T)
| Raise (e : Exn).

Arguments Ok {T} v.
Arguments Raise {T} e.

(** Methods read and write the fields of [self] and may raise: a computation
    takes the object's state and gives an outcome with the state it leaves
    behind.  What a method wrote before it raised stays written. *)
Definition M (S T : Type) : Type := S -> Result T * S.

Definition ret {S T : Type} (v : T) : M S T := fun s => (Ok v, s).

Definition raise {S T : Type} (e : Exn) : M S T := fun s => (Raise e, s).

Definition bind {S T U : Type} (m : M S T) (k : T -> M S U) : M S U :=
  fun s =>
    match m s with
    | (Ok v, s') => k v s'
    | (Raise e, s') => (Raise e, s')
    end.

(** [try: body except Exception as e: handler e] *)
Definition try_except {S T : Type} (body : M S T) (handler : Exn -> M S T) : M S T :=
  fun s =>
    match body s with
    | (Ok v, s') => (Ok v, s')
    | (Raise e, s') => handler e s'
    end.

(** A call whose outcome does not depend on the state. *)
Definition call {S T : Type} (r : Result T) : M S T := fun s => (r, s).

Definition get {S : Type} : M S S := fun s => (Ok s, s).

Definition put {S : Type} (s : S) : M S unit := fun _ => (Ok tt, s).

Declare Scope py_scope.
Delimit Scope py_scope with py.
Notation "'let*' x := m 'in' k" := (bind m (fun x => k))
  (at level 10, x name, m at level 200, k at level 200,
   format "'[v' 'let*'  x  :=  m  'in' '/' k ']'") : py_scope.
Notation "m ;; k" := (bind m (fun _ => k))
  (at level 100, k at level 200, only parsing, right associativity) : py_scope.

(** ** Data model *)

Inductive Grade : Type := A | B | C.

(** One row [x, y, confidence] of the estimator's key point array. *)
Record Keypoint : Type := mkKeypoint {
  kp_x : Q;
  kp_y : Q;
  kp_conf : Q
}.

(** An image array of shape [(height, width, 3)], 8 bits a channel, with its
    rows laid end to end. *)
Record Frame : Type := mkFrame {
  height : Z;
  width : Z;
  pixels : list (Byte.byte * Byte.byte * Byte.byte)
}.

Record AnalysisResult : Type := mkAnalysis {
  eye_contact : Grade;
  framing : Grade;
  posture : Grade;
  lighting : Grade;
  explanation : string
}.

(** ** Frame classifier *)

Module Classifier.

Section Keypoints.

(** [self.conf_threshold] *)
Variable conf_threshold : Q.

(** [keypoints[i] if len(keypoints) > i and
     keypoints[i][2] > self.conf_threshold else None] *)
Definition keypoint_at (keypoints : list Keypoint) (i : nat) : option Keypoint :=
  match keypoints !! i with
  | Some k => if Np.Qlt_bool conf_threshold (kp_conf k) then Some k else None
  | None => None
  end.

Definition _analyze_eye_contact (keypoints : list Keypoint) (width height : Z) : Grade :=
  let nose := keypoint_at keypoints 0 in
  let left_eye := keypoint_at keypoints 1 in
  let right_eye := keypoint_at keypoints 2 in
  match nose, left_eye, right_eye with
  | Some nose, Some left_eye, Some right_eye =>
      let face_center_x := (kp_x left_eye + kp_x right_eye) / 2 in
      let screen_center_x := inject_Z width / 2 in
      let horizontal_offset :=
        Np.div (Qabs (face_center_x - screen_center_x)) screen_center_x in
      let eye_distance := Qabs (kp_x left_eye - kp_x right_eye) in
      let vertical_diff := Qabs (kp_y left_eye - kp_y right_eye) in
      let tilt_ratio :=
        if Np.Qlt_bool 0 eye_distance
        then Np.div vertical_diff eye_distance else Np.Fin 0 in
      if (horizontal_offset <? 0.1)%np && (tilt_ratio <? 0.1)%np then A
      else if (horizontal_offset <? 0.2)%np && (tilt_ratio <? 0.2)%np then B
      else C
  | _, _, _ => C
  end.

Definition _analyze_framing (keypoints : list Keypoint) (width height : Z) : Grade :=
  let nose := keypoint_at keypoints 0 in
  let left_shoulder := keypoint_at keypoints 5 in
  let right_shoulder := keypoint_at keypoints 6 in
  match nose, left_shoulder, right_shoulder with
  | Some nose, Some left_shoulder, Some right_shoulder =>
      let person_center_x := (kp_x left_shoulder + kp_x right_shoulder) / 2 in
      let screen_center_x := inject_Z width / 2 in
      let horizontal_offset :=
        Np.div (Qabs (person_center_x - screen_center_x)) screen_center_x in
      let shoulder_width := Qabs (kp_x left_shoulder - kp_x right_shoulder) in
      let frame_ratio := Np.div shoulder_width (inject_Z width) in
      let head_y_ratio := Np.div (kp_y nose) (inject_Z height) in
      if (horizontal_offset <? 0.15)%np
         && ((0.1 <? frame_ratio)%np && (frame_ratio <? 0.4)%np)
         && ((0.1 <? head_y_ratio)%np && (head_y_ratio <? 0.4)%np) then A
      else if (horizontal_offset <? 0.25)%np
         && ((0.05 <? frame_ratio)%np && (frame_ratio <? 0.5)%np)
         && ((0.05 <? head_y_ratio)%np && (head_y_ratio <? 0.5)%np) then B
      else C
  | _, _, _ => C
  end.

Definition _analyze_posture (keypoints : list Keypoint) : Grade :=
  let left_shoulder := keypoint_at keypoints 5 in
  let right_shoulder := keypoint_at keypoints 6 in
  let left_hip := keypoint_at keypoints 11 in
  let right_hip := keypoint_at keypoints 12 in
  match left_shoulder, right_shoulder, left_hip, right_hip with
  | Some left_shoulder, Some right_shoulder, Some left_hip, Some right_hip =>
      let shoulder_y_diff := Qabs (kp_y left_shoulder - kp_y right_shoulder) in
      let shoulder_distance := Qabs (kp_x left_shoulder - kp_x right_shoulder) in
      let shoulder_tilt :=
        if Np.Qlt_bool 0 shoulder_distance
        then Np.div shoulder_y_diff shoulder_distance else Np.Fin 0 in
      let shoulder_center_y := (kp_y left_shoulder + kp_y right_shoulder) / 2 in
      let hip_center_y := (kp_y left_hip + kp_y right_hip) / 2 in
      let spine_angle :=
        if Np.Qlt_bool 0 shoulder_distance
        then Np.div (Qabs (shoulder_center_y - hip_center_y)) shoulder_distance
        else Np.Fin 0 in
      if (shoulder_tilt <? 0.05)%np && (spine_angle <? 0.1)%np then A
      else if (shoulder_tilt <? 0.1)%np && (spine_angle <? 0.2)%np then B
      else C
  | _, _, _, _ => C
  end.

End Keypoints.

Definition _generate_explanation (eye_contact framing posture lighting : Grade) : string :=
  let explanations : list string := [] in
  let explanations := explanations ++ [
    match eye_contact with
    | A => "Great eye contact! You're looking directly at the camera."
    | B => "Good eye contact. Try to look more directly at the camera."
    | C => "Focus on looking directly at the camera for better engagement."
    end%string] in
  let explanations := explanations ++ [
    match framing with
    | A => "Perfect framing! You're well positioned in the frame."
    | B => "Good framing. Consider adjusting your position slightly."
    | C => "Try to center yourself better in the frame."
    end%string] in
  let explanations := explanations ++ [
    match posture with
    | A => "Excellent posture! Keep your shoulders back and head up."
    | B => "Good posture. Try to sit up a bit straighter."
    | C => "Focus on maintaining better posture - shoulders back, head up."
    end%string] in
  let explanations := explanations ++ [
    match lighting with
    | A => "Perfect lighting! The camera is picking up your face clearly."
    | B => "Good lighting. Consider adjusting your lighting slightly."
    | C => "Try to improve your lighting - ensure your face is well lit."
    end%string] in
  String.concat " " explanations.

Section Lighting.

(** What [cv2.cvtColor(_, cv2.COLOR_RGB2GRAY)] makes of one pixel.  OpenCV is
    not part of this repository and its weights differ between releases;
    nothing below depends on them. *)
Variable rgb2gray : Byte.byte * Byte.byte * Byte.byte -> Byte.byte.

(** OpenCV refuses an empty source array. *)
Definition cvtColor_RGB2GRAY (frame_array : Frame) : Result (list Byte.byte) :=
  match pixels frame_array with
  | [] => Raise (OtherError "OpenCV: (-215:Assertion failed) !_src.empty() in function 'cvtColor'")
  | px => Ok (map rgb2gray px)
  end.

Definition intensity (b : Byte.byte) : Q := inject_Z (Z.of_N (Byte.to_N b)).

Definition np_sum (a : list Q) : Q := fold_right Qplus 0 a.

Definition len {T : Type} (a : list T) : Q := inject_Z (Z.of_nat (length a)).

(** [np.mean] of a non-empty array. *)
Definition np_mean (a : list Q) : Q := np_sum a / len a.

(** The mean squared deviation, of which [np.std] is the root. *)
Definition np_var (a : list Q) : Q :=
  let mu := np_mean a in
  np_mean (map (fun v => (v - mu) * (v - mu)) a).

Definition np_std (a : list Q) : Np.root := Np.sqrt (np_var a).

(** [cv2.calcHist([gray], [0], None, [256], [0, 256]).ravel()]: how many
    pixels have each of the 256 intensities. *)
Definition calcHist (gray : list Byte.byte) : list Q :=
  map (fun bin => len (List.filter (fun b => N.eqb (Byte.to_N b) (N.of_nat bin)) gray))
      (seq 0 256).

Definition _analyze_lighting (frame_array : Frame) : Grade :=
  match cvtColor_RGB2GRAY frame_array with
  | Ok gray =>
      let brightness := np_mean (map intensity gray) in
      let contrast := np_std (map intensity gray) in
      let hist := calcHist gray in
      let hist_normalized := map (fun count => count / np_sum hist) hist in
      let overexposed_ratio := np_sum (skipn 200 hist_normalized) in
      let underexposed_ratio := np_sum (firstn 50 hist_normalized) in
      if ((100 <? brightness)%np && (brightness <? 180)%np)
         && Np.lt_root 30 contrast
         && (overexposed_ratio <? 0.1)%np
         && (underexposed_ratio <? 0.1)%np then A
      else if ((80 <? brightness)%np && (brightness <? 200)%np)
         && Np.lt_root 20 contrast
         && (overexposed_ratio <? 0.2)%np
         && (underexposed_ratio <? 0.2)%np then B
      else C
  | Raise e => C
  end.

End Lighting.

End Classifier.

(** ** Analysis engine *)

Module Engine.

Import Classifier.

Local Open Scope py_scope.

(** [concurrent.futures.ThreadPoolExecutor], as far as the processor uses
    it: whether [shutdown] was called, and how many work items it has
    accepted. *)
Record ThreadPoolExecutor : Type := mkExecutor {
  pool_shutdown : bool;
  submitted : nat
}.

Record SpeechCoachProcessor : Type := mkProcessor {
  conf_threshold : Q;
  executor : ThreadPoolExecutor;
  _shutdown : bool;
  _last_analysis : AnalysisResult
}.

(** [__init__], without the loading of the model. *)
Definition __init__ (conf_threshold : Q) : SpeechCoachProcessor :=
  {| conf_threshold := conf_threshold;
     executor := {| pool_shutdown := false; submitted := 0 |};
     _shutdown := false;
     _last_analysis :=
       {| eye_contact := B; framing := B; posture := B; lighting := B;
          explanation := "Starting analysis..." |} |}.

(** [executor.submit], which [loop.run_in_executor] calls before it returns
    the future: a pool that was shut down takes no more work. *)
Definition submit : M SpeechCoachProcessor unit :=
  fun self =>
    if pool_shutdown (executor self)
    then (Raise (RuntimeError "cannot schedule new futures after shutdown"), self)
    else (Ok tt,
          {| conf_threshold := conf_threshold self;
             executor := {| pool_shutdown := false;
                            submitted := S (submitted (executor self)) |};
             _shutdown := _shutdown self;
             _last_analysis := _last_analysis self |}).

Section Estimator.

(** [self.pose_model(frame_array, ...)] followed by the reading of the first
    detection's key points: it raises, finds nobody ([None]), or gives the
    rows of the key point array. *)
Variable pose_model : Frame -> Result (option (list Keypoint)).

Variable rgb2gray : Byte.byte * Byte.byte * Byte.byte -> Byte.byte.

Definition _analyze_frame_sync (frame_array : Frame) : M SpeechCoachProcessor AnalysisResult :=
  try_except
    (let* self := get in
     if _shutdown self then ret (_last_analysis self)
     else
       let height := height frame_array in
       let width := width frame_array in
       let* pose_results := call (pose_model frame_array) in
       match pose_results with
       | None => ret (_last_analysis self)
       | Some keypoints =>
           let eye_contact_grade :=
             _analyze_eye_contact (conf_threshold self) keypoints width height in
           let framing_grade :=
             _analyze_framing (conf_threshold self) keypoints width height in
           let posture_grade := _analyze_posture (conf_threshold self) keypoints in
           let lighting_grade := _analyze_lighting rgb2gray frame_array in
           let explanation :=
             _generate_explanation
               eye_contact_grade framing_grade posture_grade lighting_grade in
           ret {| eye_contact := eye_contact_grade;
                  framing := framing_grade;
                  posture := posture_grade;
                  lighting := lighting_grade;
                  explanation := explanation |}
       end)
    (fun e => let* self := get in ret (_last_analysis self)).

(** [timed_out] says whether [asyncio.wait_for] gave up on the worker after
    its five seconds.  The worker is then left to finish; what it returns is
    dropped. *)
Definition _analyze_frame_async (frame_array : Frame) (timed_out : bool)
  : M SpeechCoachProcessor AnalysisResult :=
  try_except
    (submit ;;
     if timed_out then raise TimeoutError
     else _analyze_frame_sync frame_array)
    (fun e =>
       match e with
       | TimeoutError => let* self := get in ret (_last_analysis self)
       | _ => let* self := get in ret (_last_analysis self)
       end).

(** [frame] is the outcome of [frame.to_ndarray(format="rgb24")]. *)
Definition _analyze_frame (frame : Result Frame) (timed_out : bool)
  : M SpeechCoachProcessor unit :=
  try_except
    (let* frame_array := call frame in
     let* analysis := _analyze_frame_async frame_array timed_out in
     let* self := get in
     put {| conf_threshold := conf_threshold self;
            executor := executor self;
            _shutdown := _shutdown self;
            _last_analysis := analysis |})
    (fun e => ret tt).

(** The event consumer that [process_video] starts: [_analyze_frame] on one
    frame after the other. *)
Fixpoint consume (frames : list (Result Frame * bool)) : M SpeechCoachProcessor unit :=
  match frames with
  | [] => ret tt
  | (frame, timed_out) :: frames' =>
      _analyze_frame frame timed_out ;; consume frames'
  end.

(** Successive calls of [_analyze_frame_async], as the socket server makes
    them for successive frame messages, with what each returned. *)
Fixpoint analyze_all (frames : list (Frame * bool))
  : M SpeechCoachProcessor (list AnalysisResult) :=
  match frames with
  | [] => ret []
  | (frame_array, timed_out) :: frames' =>
      let* analysis := _analyze_frame_async frame_array timed_out in
      let* rest := analyze_all frames' in
      ret (analysis :: rest)
  end.

End Estimator.

Definition get_latest_analysis (self : SpeechCoachProcessor) : AnalysisResult :=
  _last_analysis self.

Definition close : M SpeechCoachProcessor unit :=
  fun self =>
    (Ok tt,
     {| conf_threshold := conf_threshold self;
        executor := {| pool_shutdown := true;
                       submitted := submitted (executor self) |};
        _shutdown := true;
        _last_analysis := _last_analysis self |}).

End Engine.

(** ** Result broadcaster *)

Module Server.

Import Engine.

Local Open Scope py_scope.

(** A connection handle. *)
Definition Client : Type := nat.

(** The dictionary [{"type": ..., "data": ...}] that is serialised and sent. *)
Record Message : Type := mkMessage {
  msg_type : string;
  msg_data : AnalysisResult
}.

(** The server object.  [delivered] is not one of its fields: it is the
    network, the record of what each successful [send] handed to whom. *)
Record SpeechCoachWebSocketServer : Type := mkServer {
  clients : gset Client;
  processor : SpeechCoachProcessor;
  delivered : list (Client * Message)
}.

(** A method of [self.processor] run from a method of the server. *)
Definition on_processor {T : Type} (m : M SpeechCoachProcessor T)
  : M SpeechCoachWebSocketServer T :=
  fun self =>
    let (r, p) := m (processor self) in
    (r, {| clients := clients self; processor := p; delivered := delivered self |}).

(** [for x in xs: acc = body x acc] *)
Fixpoint for_in {S T Acc : Type} (xs : list T) (body : T -> Acc -> M S Acc) (acc : Acc)
  : M S Acc :=
  match xs with
  | [] => ret acc
  | x :: xs' => let* acc' := body x acc in for_in xs' body acc'
  end.

Definition register_client (websocket : Client) : M SpeechCoachWebSocketServer unit :=
  fun self =>
    (Ok tt, {| clients := {[websocket]} ∪ clients self;
               processor := processor self;
               delivered := delivered self |}).

Definition unregister_client (websocket : Client) : M SpeechCoachWebSocketServer unit :=
  fun self =>
    (Ok tt, {| clients := clients self ∖ {[websocket]};
               processor := processor self;
               delivered := delivered self |}).

(** [cv2.cvtColor(_, cv2.COLOR_RGB2BGR)] *)
Definition cvtColor_RGB2BGR (frame_array : Frame) : Result Frame :=
  match pixels frame_array with
  | [] => Raise (OtherError "OpenCV: (-215:Assertion failed) !_src.empty() in function 'cvtColor'")
  | px => Ok {| height := height frame_array;
                width := width frame_array;
                pixels := map (fun '(r, g, b) => (b, g, r)) px |}
  end.

Section Connections.

(** What [await client.send(...)] comes to for each client. *)
Variable send : Client -> Message -> Result unit.

(** Whether the send to [client] goes through. *)
Definition accepts (message : Message) (client : Client) : bool :=
  match send client message with
  | Ok _ => true
  | Raise _ => false
  end.

Definition client_send (client : Client) (message : Message)
  : M SpeechCoachWebSocketServer unit :=
  fun self =>
    match send client message with
    | Ok _ =>
        (Ok tt, {| clients := clients self;
                   processor := processor self;
                   delivered := delivered self ++ [(client, message)] |})
    | Raise e => (Raise e, self)
    end.

Definition broadcast_analysis (analysis : AnalysisResult)
  : M SpeechCoachWebSocketServer unit :=
  let* self := get in
  if decide (clients self = ∅) then ret tt
  else
    let message := {| msg_type := "analysis"; msg_data := analysis |} in
    let* disconnected_clients :=
      for_in (elements (clients self))
        (fun client (disconnected_clients : gset Client) =>
           try_except
             (client_send client message ;; ret disconnected_clients)
             (fun e =>
                match e with
                | ConnectionClosed => ret ({[client]} ∪ disconnected_clients)
                | _ => ret ({[client]} ∪ disconnected_clients)
                end))
        ∅ in
    for_in (elements disconnected_clients)
      (fun client (_ : unit) => unregister_client client) tt.

(** The decoders of the standard library and of Pillow. *)
Variable b64decode : string -> Result (list Byte.byte).
Variable Image : Type.
Variable Image_open : list Byte.byte -> Result Image.
Variable np_array : Image -> Frame.

Variable pose_model : Frame -> Result (option (list Keypoint)).
Variable rgb2gray : Byte.byte * Byte.byte * Byte.byte -> Byte.byte.

Definition process_frame (frame_data : string) (timed_out : bool)
  : M SpeechCoachWebSocketServer unit :=
  try_except
    (let* image_data := call (b64decode frame_data) in
     let* image := call (Image_open image_data) in
     let frame_array := np_array image in
     let* frame_array := call (cvtColor_RGB2BGR frame_array) in
     let* analysis :=
       on_processor (_analyze_frame_async pose_model rgb2gray frame_array timed_out) in
     broadcast_analysis analysis)
    (fun e =>
       match e with
       | BinasciiError _ =>
           let error_analysis :=
             {| eye_contact := C; framing := C; posture := C; lighting := C;
                explanation := "Error processing frame - invalid image data" |} in
           broadcast_analysis error_analysis
       | _ =>
           let error_analysis :=
             {| eye_contact := C; framing := C; posture := C; lighting := C;
                explanation := "Error processing frame: " ++ str e |} in
           broadcast_analysis error_analysis
       end).

End Connections.

End Server.

(** ** Connections of the socket server *)

Module Connection.

Import Engine Server.

Local Open Scope py_scope.

(** A value of a decoded message, as far as the handlers look at it: [None]
    (also what [dict.get] gives for a missing key), a string, or a value of
    another type, of which the name is kept. *)
Inductive Json : Type :=
| JNull
| JString (s : string)
| JOther (type_name : string).

(** [type(v).__name__] *)
Definition type_name_of (v : Json) : string :=
  match v with
  | JNull => "NoneType"
  | JString _ => "str"
  | JOther type_name => type_name
  end.

(** What [json.loads] returns: a dictionary, or some other value. *)
Inductive Document : Type :=
| Dict (items : string -> Json)
| NotDict.

(** [data.get(key)]: only a dictionary has the method. *)
Definition data_get (data : Document) (key : string) : Result Json :=
  match data with
  | Dict items => Ok (items key)
  | NotDict => Raise (OtherError "object has no attribute 'get'")
  end.

(** The dictionary [{"type": ...}] that [send_message] is given. *)
Record Reply : Type := mkReply {
  reply_type : string
}.

(** The server object with its [running] flag.  [replied] is the network
    again: what each successful [send] of [send_message] handed to whom. *)
Record Session : Type := mkSession {
  server : SpeechCoachWebSocketServer;
  running : bool;
  replied : list (Client * Reply)
}.

(** [SpeechCoachWebSocketServer.__init__]; the processor is built with its
    default threshold. *)
Definition __init__ : Session :=
  {| server := {| clients := ∅;
                  processor := Engine.__init__ 0.5;
                  delivered := [] |};
     running := false;
     replied := [] |}.

(** A method modelled on the server record, run on the session. *)
Definition on_server {T : Type} (m : M SpeechCoachWebSocketServer T) : M Session T :=
  fun self =>
    let (r, srv) := m (server self) in
    (r, {| server := srv; running := running self; replied := replied self |}).

(** [try: body finally: cleanup] *)
Definition try_finally {S T : Type} (body : M S T) (cleanup : M S unit) : M S T :=
  fun s =>
    let (r, s') := body s in
    match cleanup s' with
    | (Ok _, s'') => (r, s'')
    | (Raise e, s'') => (Raise e, s'')
    end.

Section Handlers.

Variable send : Client -> Message -> Result unit.

(** What [await websocket.send(...)] comes to for a reply. *)
Variable send_reply : Client -> Reply -> Result unit.

Variable json_loads : string -> Result Document.
Variable b64decode : string -> Result (list Byte.byte).
Variable Image : Type.
Variable Image_open : list Byte.byte -> Result Image.
Variable np_array : Image -> Frame.
Variable pose_model : Frame -> Result (option (list Keypoint)).
Variable rgb2gray : Byte.byte * Byte.byte * Byte.byte -> Byte.byte.

Definition websocket_send (websocket : Client) (message : Reply) : M Session unit :=
  fun self =>
    match send_reply websocket message with
    | Ok _ =>
        (Ok tt, {| server := server self;
                   running := running self;
                   replied := replied self ++ [(websocket, message)] |})
    | Raise e => (Raise e, self)
    end.

Definition send_message (websocket : Client) (message : Reply) : M Session unit :=
  try_except
    (websocket_send websocket message)
    (fun e =>
       match e with
       | ConnectionClosed => on_server (unregister_client websocket)
       | _ => ret tt
       end).

(** [self.process_frame(data.get("frame"))].  [base64.b64decode] takes a
    string; given [None] or any other value it raises a [TypeError] before
    it decodes anything. *)
Definition process_frame_value (frame_data : Json) (timed_out : bool)
  : M SpeechCoachWebSocketServer unit :=
  match frame_data with
  | JString s =>
      process_frame send b64decode Image Image_open np_array pose_model rgb2gray
        s timed_out
  | _ =>
      process_frame send
        (fun _ => Raise (OtherError
                           ("argument should be a bytes-like object or ASCII string, not '"
                            ++ type_name_of frame_data ++ "'")))
        Image Image_open np_array pose_model rgb2gray "" timed_out
  end.

(** [timed_out] is for the analysis that a frame message starts. *)
Definition handle_message (websocket : Client) (message : string) (timed_out : bool)
  : M Session unit :=
  try_except
    (let* data := call (json_loads message) in
     let* message_type := call (data_get data "type") in
     match message_type with
     | JString t =>
         if String.eqb t "frame" then
           let* frame := call (data_get data "frame") in
           on_server (process_frame_value frame timed_out)
         else if String.eqb t "ping" then
           send_message websocket {| reply_type := "pong" |}
         else ret tt
     | _ => ret tt
     end)
    (fun e => ret tt).

(** [messages] is what the iteration over the socket yields, [ending] how
    the iteration ends: normally, or with the exception the socket raises
    when the connection breaks. *)
Definition handle_client (websocket : Client) (path : string)
    (messages : list (string * bool)) (ending : Result unit) : M Session unit :=
  on_server (register_client websocket) ;;
  try_finally
    (try_except
       (for_in messages
          (fun message (_ : unit) => handle_message websocket (fst message) (snd message))
          tt ;;
        call ending)
       (fun e =>
          match e with
          | ConnectionClosed => ret tt
          | _ => ret tt
          end))
    (on_server (unregister_client websocket)).

End Handlers.

Definition stop : M Session unit :=
  (fun self =>
     (Ok tt, {| server := server self; running := false; replied := replied self |})) ;;
  on_server (on_processor close).

End Connection.

(** ** The design document's vocabulary *)

Module Spec.

Import Classifier.

(** The landmarks the graders look at, with their rows in the key point
    array. *)
Inductive Landmark : Type :=
| nose | left_eye | right_eye
| left_shoulder | right_shoulder
| left_hip | right_hip.

Definition row (m : Landmark) : nat :=
  match m with
  | nose => 0 | left_eye => 1 | right_eye => 2
  | left_shoulder => 5 | right_shoulder => 6
  | left_hip => 11 | right_hip => 12
  end%nat.

(** The four dimensions of the feedback.  Lighting is graded from the
    pixels alone and requires no landmark. *)
Inductive Dimension : Type := EyeContact | Framing | Posture | Lighting.

Definition required (d : Dimension) : list Landmark :=
  match d with
  | EyeContact => [nose; left_eye; right_eye]
  | Framing => [nose; left_shoulder; right_shoulder]
  | Posture => [left_shoulder; right_shoulder; left_hip; right_hip]
  | Lighting => []
  end.

(** The grade that one analysis cycle gives a dimension, as
    [_analyze_frame_sync] asks for it. *)
Definition grade_of (conf_threshold : Q)
    (rgb2gray : Byte.byte * Byte.byte * Byte.byte -> Byte.byte) (d : Dimension)
    (keypoints : list Keypoint) (frame_array : Frame) : Grade :=
  match d with
  | EyeContact =>
      _analyze_eye_contact conf_threshold keypoints (width frame_array) (height frame_array)
  | Framing =>
      _analyze_framing conf_threshold keypoints (width frame_array) (height frame_array)
  | Posture => _analyze_posture conf_threshold keypoints
  | Lighting => _analyze_lighting rgb2gray frame_array
  end.

(** Landmark [m] is absent, or its confidence does not exceed the
    threshold. *)
Definition missing (conf_threshold : Q) (keypoints : list Keypoint) (m : Landmark) : Prop :=
  keypoints !! row m = None
  \/ exists k, keypoints !! row m = Some k /\ kp_conf k <= conf_threshold.

(** Landmark [m] is at [k], above the threshold. *)
Definition found (conf_threshold : Q) (keypoints : list Keypoint) (m : Landmark)
    (k : Keypoint) : Prop :=
  keypoints !! row m = Some k /\ conf_threshold < kp_conf k.

(** [|center_x - frame_center_x| / (frame_width / 2)] *)
Definition horizontal_offset (center_x : Q) (frame_width : Z) : Np.value :=
  Np.div (Qabs (center_x - inject_Z frame_width / 2)) (inject_Z frame_width / 2).

Definition midpoint (a b : Q) : Q := (a + b) / 2.

(** [|left_eye_y - right_eye_y| / |left_eye_x - right_eye_x|], and 0 when the
    eyes are at the same x. *)
Definition tilt_ratio (l r : Keypoint) : Np.value :=
  if Qeq_bool (kp_x l) (kp_x r) then Np.Fin 0
  else Np.div (Qabs (kp_y l - kp_y r)) (Qabs (kp_x l - kp_x r)).

(** [shoulder_width / frame_width] *)
Definition frame_ratio (l r : Keypoint) (frame_width : Z) : Np.value :=
  Np.div (Qabs (kp_x l - kp_x r)) (inject_Z frame_width).

(** [nose_y / frame_height] *)
Definition head_y_ratio (n : Keypoint) (frame_height : Z) : Np.value :=
  Np.div (kp_y n) (inject_Z frame_height).

(** [v] is the finite value [q]. *)
Definition exactly (v : Np.value) (q : Q) : Prop :=
  match v with
  | Np.Fin a => a == q
  | _ => False
  end.

(** The local variables [shoulder_tilt] and [spine_angle] of
    [_analyze_posture] when it reaches its grading step with these four key
    points. *)
Definition shoulder_tilt (left_shoulder right_shoulder : Keypoint) : Np.value :=
  let shoulder_y_diff := Qabs (kp_y left_shoulder - kp_y right_shoulder) in
  let shoulder_distance := Qabs (kp_x left_shoulder - kp_x right_shoulder) in
  if Np.Qlt_bool 0 shoulder_distance
  then Np.div shoulder_y_diff shoulder_distance else Np.Fin 0.

Definition spine_angle (left_shoulder right_shoulder left_hip right_hip : Keypoint)
  : Np.value :=
  let shoulder_distance := Qabs (kp_x left_shoulder - kp_x right_shoulder) in
  let shoulder_center_y := (kp_y left_shoulder + kp_y right_shoulder) / 2 in
  let hip_center_y := (kp_y left_hip + kp_y right_hip) / 2 in
  if Np.Qlt_bool 0 shoulder_distance
  then Np.div (Qabs (shoulder_center_y - hip_center_y)) shoulder_distance
  else Np.Fin 0.

(** The share of the pixels whose intensity lies in [[lo, hi]]. *)
Definition share (gray : list Byte.byte) (lo hi : N) : Q :=
  len (List.filter (fun b => (lo <=? Byte.to_N b)%N && (Byte.to_N b <=? hi)%N) gray)
  / len gray.

(** The twelve canned sentences. *)
Definition sentence (d : Dimension) (g : Grade) : string :=
  match d, g with
  | EyeContact, A => "Great eye contact! You're looking directly at the camera."
  | EyeContact, B => "Good eye contact. Try to look more directly at the camera."
  | EyeContact, C => "Focus on looking directly at the camera for better engagement."
  | Framing, A => "Perfect framing! You're well positioned in the frame."
  | Framing, B => "Good framing. Consider adjusting your position slightly."
  | Framing, C => "Try to center yourself better in the frame."
  | Posture, A => "Excellent posture! Keep your shoulders back and head up."
  | Posture, B => "Good posture. Try to sit up a bit straighter."
  | Posture, C => "Focus on maintaining better posture - shoulders back, head up."
  | Lighting, A => "Perfect lighting! The camera is picking up your face clearly."
  | Lighting, B => "Good lighting. Consider adjusting your lighting slightly."
  | Lighting, C => "Try to improve your lighting - ensure your face is well lit."
  end.

End Spec.

(** ** Changes of the picture *)

Module Picture.

(** Two values that the comparisons cannot tell apart. *)
Definition same (v v' : Np.value) : Prop :=
  match v, v' with
  | Np.Fin a, Np.Fin b => a == b
  | Np.PInf, Np.PInf | Np.NInf, Np.NInf | Np.NaN, Np.NaN => True
  | _, _ => False
  end.

(** The key point in a picture enlarged [s] times. *)
Definition enlarge (s : Z) (k : Keypoint) : Keypoint :=
  {| kp_x := inject_Z s * kp_x k;
     kp_y := inject_Z s * kp_y k;
     kp_conf := kp_conf k |}.

(** The key point in the mirror image of a picture [frame_width] wide. *)
Definition mirror (frame_width : Z) (k : Keypoint) : Keypoint :=
  {| kp_x := inject_Z frame_width - kp_x k;
     kp_y := kp_y k;
     kp_conf := kp_conf k |}.

(** The pixels with red and blue exchanged. *)
Definition swap_red_blue (p : Byte.byte * Byte.byte * Byte.byte)
  : Byte.byte * Byte.byte * Byte.byte :=
  let '(r, g, b) := p in (b, g, r).

End Picture.

(** ** Results *)

Module Results.

(** The result a new processor starts with. *)
Definition starting : AnalysisResult :=
  Engine._last_analysis (Engine.__init__ 0.5).

(** The explanation of a result is the one of its own four grades. *)
Definition consistent (a : AnalysisResult) : Prop :=
  explanation a
  = Classifier._generate_explanation
      (eye_contact a) (framing a) (posture a) (lighting a).

(** The result of grading [keypoints] in [frame_array]. *)
Definition graded (conf_threshold : Q)
    (rgb2gray : Byte.byte * Byte.byte * Byte.byte -> Byte.byte)
    (keypoints : list Keypoint) (frame_array : Frame) : AnalysisResult :=
  let e := Spec.grade_of conf_threshold rgb2gray Spec.EyeContact keypoints frame_array in
  let f := Spec.grade_of conf_threshold rgb2gray Spec.Framing keypoints frame_array in
  let p := Spec.grade_of conf_threshold rgb2gray Spec.Posture keypoints frame_array in
  let l := Spec.grade_of conf_threshold rgb2gray Spec.Lighting keypoints frame_array in
  {| eye_contact := e; framing := f; posture := p; lighting := l;
     explanation := Classifier._generate_explanation e f p l |}.

(** The conversion of a frame went through. *)
Definition converted {T : Type} (frame : Result T) : bool :=
  match frame with
  | Ok _ => true
  | Raise _ => false
  end.

End Results.

(** ** Sample data *)

(** A seventeen-row observation in a 640 by 480 frame: eyes level and
    centred, shoulders level, every landmark the graders use well above
    0.5. *)
Definition upright : list Keypoint :=
  [ mkKeypoint 320 100 0.9; mkKeypoint 300 90 0.9; mkKeypoint 340 90 0.9;
    mkKeypoint 290 95 0.9; mkKeypoint 350 95 0.9;
    mkKeypoint 240 200 0.9; mkKeypoint 400 200 0.9;
    mkKeypoint 230 300 0.2; mkKeypoint 410 300 0.2;
    mkKeypoint 230 380 0.2; mkKeypoint 410 380 0.2;
    mkKeypoint 260 210 0.9; mkKeypoint 380 210 0.9;
    mkKeypoint 260 450 0.1; mkKeypoint 380 450 0.1;
    mkKeypoint 260 470 0.1; mkKeypoint 380 470 0.1 ].

(** The same person turned sideways: both shoulders at the same x, the hips
    far below. *)
Definition sideways : list Keypoint :=
  [ mkKeypoint 320 100 0.9; mkKeypoint 300 90 0.9; mkKeypoint 340 90 0.9;
    mkKeypoint 290 95 0.9; mkKeypoint 350 95 0.9;
    mkKeypoint 320 190 0.9; mkKeypoint 320 210 0.9;
    mkKeypoint 230 300 0.2; mkKeypoint 410 300 0.2;
    mkKeypoint 230 380 0.2; mkKeypoint 410 380 0.2;
    mkKeypoint 300 460 0.9; mkKeypoint 330 470 0.9;
    mkKeypoint 260 450 0.1; mkKeypoint 380 450 0.1;
    mkKeypoint 260 470 0.1; mkKeypoint 380 470 0.1 ].

(** A grey conversion to compute with: the green channel. *)
Definition green (p : Byte.byte * Byte.byte * Byte.byte) : Byte.byte :=
  let '(r, g, b) := p in g.

(** Four pixels, two of intensity 100 and two of intensity 170: brightness
    135, deviation 35, nothing in the extreme bins. *)
Definition well_lit : Frame :=
  {| height := 2; width := 2;
     pixels := [ (Byte.x64, Byte.x64, Byte.x64); (Byte.xaa, Byte.xaa, Byte.xaa);
                 (Byte.xaa, Byte.xaa, Byte.xaa); (Byte.x64, Byte.x64, Byte.x64) ] |}.

(** An estimator that finds nobody, and one that always finds [upright]. *)
Definition nobody (frame_array : Frame) : Result (option (list Keypoint)) := Ok None.

Definition somebody (frame_array : Frame) : Result (option (list Keypoint)) :=
  Ok (Some upright).

(** Three clients, of which the second has gone away. *)
Definition second_is_gone (client : Server.Client) (message : Server.Message)
  : Result unit :=
  if (client =? 2)%nat then Raise ConnectionClosed else Ok tt.

Definition three_clients : Server.SpeechCoachWebSocketServer :=
  {| Server.clients := {[ 1%nat; 2%nat; 3%nat ]};
     Server.processor := Engine.__init__ 0.5;
     Server.delivered := [] |}.

(** Decoders that reject what they are given. *)
Definition bad_padding (frame_data : string) : Result (list Byte.byte) :=
  Raise (BinasciiError "Incorrect padding").

Definition any_bytes (frame_data : string) : Result (list Byte.byte) := Ok [].

Definition not_an_image (image_data : list Byte.byte) : Result Frame :=
  Raise (OtherError "cannot identify image file").

(** Four pixels of the same grey, and four pixels that are all highlights. *)
Definition flat_grey : Frame :=
  {| height := 2; width := 2;
     pixels := [ (Byte.x80, Byte.x80, Byte.x80); (Byte.x80, Byte.x80, Byte.x80);
                 (Byte.x80, Byte.x80, Byte.x80); (Byte.x80, Byte.x80, Byte.x80) ] |}.

Definition overexposed : Frame :=
  {| height := 2; width := 2;
     pixels := [ (Byte.xc8, Byte.xc8, Byte.xc8); (Byte.xff, Byte.xff, Byte.xff);
                 (Byte.xe6, Byte.xe6, Byte.xe6); (Byte.xff, Byte.xff, Byte.xff) ] |}.

(** Three frames of a video: one in time, one that cannot be converted, one
    on which the worker is late. *)
Definition three_frames : list (Result Frame * bool) :=
  [ (Ok well_lit, false);
    (Raise (OtherError "Conversion to numpy array with format rgb24 not yet supported"),
     false);
    (Ok well_lit, true) ].

(** A picture decoder that always opens [well_lit]. *)
Definition opens_well_lit (image_data : list Byte.byte) : Result Frame := Ok well_lit.

(** The messages [{"type": "ping"}] and [{"type": "frame"}], and a text that
    is not JSON. *)
Definition ping_items (key : string) : Connection.Json :=
  if String.eqb key "type" then Connection.JString "ping" else Connection.JNull.

Definition frame_items (key : string) : Connection.Json :=
  if String.eqb key "type" then Connection.JString "frame" else Connection.JNull.

Definition loads_ping (message : string) : Result Connection.Document :=
  Ok (Connection.Dict ping_items).

Definition loads_frame (message : string) : Result Connection.Document :=
  Ok (Connection.Dict frame_items).

Definition not_json (message : string) : Result Connection.Document :=
  Raise (OtherError "Expecting value: line 1 column 1 (char 0)").

(** A websocket that takes every reply. *)
Definition reply_goes_through (client : Server.Client) (message : Connection.Reply)
  : Result unit :=
  Ok tt.

(** * Properties *)

(** ** Arithmetic *)

Lemma Qlt_bool_iff (a b : Q) : Np.Qlt_bool a b = true <-> a < b.
Proof.
  unfold Np.Qlt_bool. rewrite negb_true_iff.
  destruct (Qle_bool b a) eqn:E.
  - apply Qle_bool_iff in E. split; [discriminate | intros H].
    exfalso. exact (Qlt_not_le _ _ H E).
  - split; [intros _ | reflexivity].
    apply Qnot_le_lt. intros H. apply Qle_bool_iff in H. congruence.
Qed.

Lemma Qlt_bool_false_iff (a b : Q) : Np.Qlt_bool a b = false <-> b <= a.
Proof.
  unfold Np.Qlt_bool. rewrite negb_false_iff. apply Qle_bool_iff.
Qed.

Lemma Qabs_sub_pos (a b : Q) : Np.Qlt_bool 0 (Qabs (a - b)) = negb (Qeq_bool a b).
Proof.
  destruct (Qeq_bool a b) eqn:E; cbn [negb].
  - apply Qeq_bool_iff in E. apply Qlt_bool_false_iff.
    apply Qabs_case; intros; lra.
  - apply Qlt_bool_iff. apply Qeq_bool_neq in E.
    apply Qabs_case; intros H.
    + destruct (Qle_lt_or_eq _ _ H) as [H' | H']; [exact H' |].
      exfalso. apply E. lra.
    + destruct (Qle_lt_or_eq _ _ H) as [H' | H']; [lra |].
      exfalso. apply E. lra.
Qed.

(** ** Frame classifier *)

Section ClassifierFacts.

Import Classifier Spec.

Variable conf_threshold : Q.

Lemma keypoint_at_found (keypoints : list Keypoint) (m : Landmark) (k : Keypoint) :
  found conf_threshold keypoints m k ->
  keypoint_at conf_threshold keypoints (row m) = Some k.
Proof.
  intros [Hrow Hconf]. unfold keypoint_at. rewrite Hrow.
  apply Qlt_bool_iff in Hconf. now rewrite Hconf.
Qed.

Lemma keypoint_at_missing (keypoints : list Keypoint) (m : Landmark) :
  missing conf_threshold keypoints m ->
  keypoint_at conf_threshold keypoints (row m) = None.
Proof.
  intros [Hrow | (k & Hrow & Hconf)]; unfold keypoint_at; rewrite Hrow.
  - reflexivity.
  - apply Qlt_bool_false_iff in Hconf. now rewrite Hconf.
Qed.

Ltac use_found H :=
  let E := fresh "E" in
  pose proof (keypoint_at_found _ _ _ H) as E; cbn [row] in E; rewrite E; clear E.

(** The shape all four graders end in. *)
Lemma ladder_Prop (a b : bool) (PA PB : Prop) :
  (a = true <-> PA) -> (b = true <-> PB) ->
  let g := if a then A else if b then B else C in
  (g = A <-> PA)
  /\ (g = B <-> ~ PA /\ PB)
  /\ (g = C <-> ~ PA /\ ~ PB).
Proof.
  intros HA HB. destruct a, b; cbn;
    (repeat split; try discriminate; try tauto; intros; intuition congruence).
Qed.

(** C2. A dimension graded from key points gets C as soon as one of the
    landmarks it requires is absent from the observation or has a confidence
    that does not exceed the threshold: nose and both eyes for eye contact,
    nose and both shoulders for framing, both shoulders and both hips for
    posture. *)
Theorem missing_keypoint_grades_C
    (rgb2gray : Byte.byte * Byte.byte * Byte.byte -> Byte.byte)
    (d : Dimension) (keypoints : list Keypoint) (frame_array : Frame) (m : Landmark) :
  In m (required d) ->
  missing conf_threshold keypoints m ->
  grade_of conf_threshold rgb2gray d keypoints frame_array = C.
Proof.
  intros Hin Hmiss. apply keypoint_at_missing in Hmiss.
  destruct d; cbn in Hin; try contradiction; unfold grade_of;
    [unfold _analyze_eye_contact | unfold _analyze_framing | unfold _analyze_posture];
    repeat (destruct Hin as [<- | Hin]; [cbn [row] in Hmiss; rewrite Hmiss |]);
    try contradiction;
    repeat match goal with
           | |- context [match keypoint_at ?t ?k ?i with _ => _ end] =>
               destruct (keypoint_at t k i)
           end; reflexivity.
Qed.

Lemma is_lt_Fin (a b : Q) : (Np.Fin a < Np.Fin b)%np <-> a < b.
Proof. unfold Np.is_lt. cbn. apply Qlt_bool_iff. Qed.

Lemma not_lt_exactly (v : Np.value) (q : Q) : exactly v q -> ~ (v < q)%np.
Proof.
  destruct v as [a | | |]; cbn; try contradiction.
  intros Heq Hlt. apply is_lt_Fin in Hlt. lra.
Qed.

Lemma not_gt_exactly (v : Np.value) (q : Q) : exactly v q -> ~ (q < v)%np.
Proof.
  destruct v as [a | | |]; cbn; try contradiction.
  intros Heq Hlt. apply is_lt_Fin in Hlt. lra.
Qed.

Lemma is_lt_weaken (v : Np.value) (a b : Q) : a <= b -> (v < a)%np -> (v < b)%np.
Proof.
  destruct v as [q | | |]; try (intros _ H; exact H).
  intros Hab H. apply is_lt_Fin in H. apply is_lt_Fin. lra.
Qed.

Lemma is_gt_weaken (v : Np.value) (a b : Q) : b <= a -> (a < v)%np -> (b < v)%np.
Proof.
  destruct v as [q | | |]; try (intros _ H; exact H).
  intros Hab H. apply is_lt_Fin in H. apply is_lt_Fin. lra.
Qed.



(** [_analyze_posture] grades the two local variables. *)
Lemma _analyze_posture_grades
    (keypoints : list Keypoint) (ls rs lh rh : Keypoint) :
  found conf_threshold keypoints left_shoulder ls ->
  found conf_threshold keypoints right_shoulder rs ->
  found conf_threshold keypoints left_hip lh ->
  found conf_threshold keypoints right_hip rh ->
  _analyze_posture conf_threshold keypoints =
    if (shoulder_tilt ls rs <? 0.05)%np && (spine_angle ls rs lh rh <? 0.1)%np then A
    else if (shoulder_tilt ls rs <? 0.1)%np && (spine_angle ls rs lh rh <? 0.2)%np then B
    else C.
Proof.
  intros Hls Hrs Hlh Hrh. unfold _analyze_posture.
  use_found Hls. use_found Hrs. use_found Hlh. use_found Hrh. reflexivity.
Qed.

(** C10. With both shoulders and both hips above the threshold and the two
    shoulders at the same x, the shoulder distance is 0, [shoulder_tilt] and
    [spine_angle] are both taken to be 0 rather than divided by it, and
    posture is A wherever the hips are. *)
Theorem posture_coincident_shoulders
    (keypoints : list Keypoint) (ls rs lh rh : Keypoint) :
  found conf_threshold keypoints left_shoulder ls ->
  found conf_threshold keypoints right_shoulder rs ->
  found conf_threshold keypoints left_hip lh ->
  found conf_threshold keypoints right_hip rh ->
  kp_x ls == kp_x rs ->
  shoulder_tilt ls rs = Np.Fin 0
  /\ spine_angle ls rs lh rh = Np.Fin 0
  /\ _analyze_posture conf_threshold keypoints = A.
Proof.
  intros Hls Hrs Hlh Hrh Hx.
  assert (Hd : Np.Qlt_bool 0 (Qabs (kp_x ls - kp_x rs)) = false).
  { rewrite Qabs_sub_pos. apply Qeq_bool_iff in Hx. now rewrite Hx. }
  assert (Ht : shoulder_tilt ls rs = Np.Fin 0)
    by (unfold shoulder_tilt; cbv zeta; now rewrite Hd).
  assert (Hs : spine_angle ls rs lh rh = Np.Fin 0)
    by (unfold spine_angle; cbv zeta; now rewrite Hd).
  repeat split; try assumption.
  rewrite (_analyze_posture_grades keypoints ls rs lh rh) by assumption.
  rewrite Ht, Hs. reflexivity.
Qed.

End ClassifierFacts.

Example upright_grades :
  Classifier._analyze_eye_contact 0.5 upright 640 480 = A
  /\ Classifier._analyze_framing 0.5 upright 640 480 = A
  /\ Classifier._analyze_posture 0.5 upright = A.
Proof. vm_compute. auto. Qed.

(** ** Explanation *)

(** C6. The explanation of four grades is the sentence of the eye contact
    grade, of the framing grade, of the posture grade and of the lighting
    grade, in this order, with one space between two sentences.  It is a
    function of the four grades alone.  The sentences come from a table of
    twelve, one for each dimension and grade, no two of them equal: in
    particular B and C never share a sentence. *)
Theorem explanation_is_four_sentences :
  (forall e f p l : Grade,
     Classifier._generate_explanation e f p l =
       (Spec.sentence Spec.EyeContact e ++ " " ++ Spec.sentence Spec.Framing f ++ " "
        ++ Spec.sentence Spec.Posture p ++ " " ++ Spec.sentence Spec.Lighting l)%string)
  /\ (forall (d d' : Spec.Dimension) (g g' : Grade),
        Spec.sentence d g = Spec.sentence d' g' -> d = d' /\ g = g')
  /\ (forall d : Spec.Dimension, Spec.sentence d B <> Spec.sentence d C).
Proof.
  assert (Hinj : forall (d d' : Spec.Dimension) (g g' : Grade),
             Spec.sentence d g = Spec.sentence d' g' -> d = d' /\ g = g').
  { intros d d' g g' H.
    destruct d, g, d', g'; first [split; reflexivity | discriminate H]. }
  split; [| split].
  - intros e f p l. destruct e, f, p, l; reflexivity.
  - exact Hinj.
  - intros d H. apply Hinj in H. destruct H as [_ H]. discriminate H.
Qed.

(** ** Lighting *)

Section LightingFacts.

Import Classifier Spec.

Lemma np_sum_scaled (t : Q) (a : list Q) :
  np_sum (map (fun count => count / t) a) == np_sum a / t.
Proof.
  induction a as [| c a IH]; cbn [map np_sum fold_right].
  - unfold Qdiv. ring.
  - fold (np_sum (map (fun count => count / t) a)). fold (np_sum a).
    rewrite IH. unfold Qdiv. ring.
Qed.

Lemma np_sum_counts {T : Type} (f : T -> nat) (bins : list T) :
  np_sum (map (fun bin => inject_Z (Z.of_nat (f bin))) bins)
  == inject_Z (Z.of_nat (list_sum (map f bins))).
Proof.
  unfold list_sum.
  induction bins as [| b bins IH]; cbn [map np_sum fold_right].
  - reflexivity.
  - fold (np_sum (map (fun bin => inject_Z (Z.of_nat (f bin))) bins)).
    rewrite IH, Nat2Z.inj_add, inject_Z_plus. reflexivity.
Qed.

Lemma np_sum_nonneg (a : list Q) : Forall (fun v => 0 <= v) a -> 0 <= np_sum a.
Proof.
  induction 1 as [| v a Hv _ IH]; cbn [np_sum fold_right].
  - apply Qle_refl.
  - fold (np_sum a). lra.
Qed.

Lemma Qdiv_nonneg (a b : Q) : 0 <= a -> 0 <= b -> 0 <= a / b.
Proof.
  intros Ha Hb. unfold Qdiv. apply Qmult_le_0_compat; [exact Ha |].
  apply Qinv_le_0_compat. exact Hb.
Qed.

Lemma len_nonneg {T : Type} (a : list T) : 0 <= len a.
Proof.
  unfold len. change 0 with (inject_Z 0). rewrite <- Zle_Qle. lia.
Qed.

Lemma np_var_nonneg (a : list Q) : 0 <= np_var a.
Proof.
  unfold np_var, np_mean. cbv zeta.
  apply Qdiv_nonneg; [| apply len_nonneg].
  apply np_sum_nonneg. apply List.Forall_forall. intros v Hv.
  apply List.in_map_iff in Hv. destruct Hv as (w & <- & _).
  set (t := w - np_sum a / len a).
  destruct (Qlt_le_dec t 0) as [Ht | Ht].
  - assert (E : t * t == (- t) * (- t)) by ring.
    rewrite E. apply Qmult_le_0_compat; lra.
  - apply Qmult_le_0_compat; exact Ht.
Qed.

Lemma list_sum_pointwise {T : Type} (f g : T -> nat) (bins : list T) :
  list_sum (map (fun bin => f bin + g bin)%nat bins)
  = (list_sum (map f bins) + list_sum (map g bins))%nat.
Proof.
  unfold list_sum.
  induction bins as [| b bins IH]; cbn [map fold_right]; [reflexivity |].
  rewrite IH. lia.
Qed.

(** A value falls in exactly one bin, if it falls in the range at all. *)
Lemma one_bin (n a k : nat) :
  list_sum (map (fun bin => if (n =? bin)%nat then 1 else 0)%nat (seq a k))
  = if ((a <=? n) && (n <? a + k))%nat then 1%nat else 0%nat.
Proof.
  unfold list_sum.
  revert a. induction k as [| k IH]; intros a; cbn [seq map fold_right].
  - destruct (Nat.leb_spec a n), (Nat.ltb_spec n (a + 0)); cbn; lia.
  - rewrite IH.
    destruct (Nat.eqb_spec n a), (Nat.leb_spec (S a) n), (Nat.ltb_spec n (S a + k)),
      (Nat.leb_spec a n), (Nat.ltb_spec n (a + S k)); cbn; lia.
Qed.

(** The bins [a .. a + k - 1] of the histogram hold the pixels whose
    intensity is in that range. *)
Lemma bins_count (gray : list Byte.byte) (a k : nat) :
  list_sum
    (map (fun bin =>
            length (List.filter (fun b => N.eqb (Byte.to_N b) (N.of_nat bin)) gray))
       (seq a k))
  = length
      (List.filter
         (fun b => ((a <=? N.to_nat (Byte.to_N b))
                    && (N.to_nat (Byte.to_N b) <? a + k))%nat) gray).
Proof.
  induction gray as [| b gray IH].
  - cbn [List.filter length]. unfold list_sum.
    induction (seq a k) as [| x l IHl]; cbn [map fold_right]; auto.
  - cbn [List.filter].
    rewrite (map_ext
               (fun bin =>
                  length (if N.eqb (Byte.to_N b) (N.of_nat bin)
                          then b :: List.filter
                                 (fun b0 => N.eqb (Byte.to_N b0) (N.of_nat bin)) gray
                          else List.filter
                                 (fun b0 => N.eqb (Byte.to_N b0) (N.of_nat bin)) gray))
               (fun bin =>
                  (if (N.to_nat (Byte.to_N b) =? bin)%nat then 1 else 0)
                  + length (List.filter
                              (fun b0 => N.eqb (Byte.to_N b0) (N.of_nat bin)) gray))%nat).
    + rewrite list_sum_pointwise, IH, one_bin.
      destruct ((a <=? N.to_nat (Byte.to_N b))
                && (N.to_nat (Byte.to_N b) <? a + k))%nat; reflexivity.
    + intros bin.
      destruct (N.eqb_spec (Byte.to_N b) (N.of_nat bin)) as [E | E],
        (Nat.eqb_spec (N.to_nat (Byte.to_N b)) bin) as [E' | E'];
        cbn [length]; try reflexivity; exfalso; lia.
Qed.

Lemma filter_length_ext {T : Type} (f g : T -> bool) (l : list T) :
  (forall v, f v = g v) -> length (List.filter f l) = length (List.filter g l).
Proof. intros H. now rewrite (List.filter_ext f g H). Qed.

Lemma np_sum_bins (gray : list Byte.byte) (a k : nat) :
  np_sum
    (map (fun bin =>
            len (List.filter (fun b => N.eqb (Byte.to_N b) (N.of_nat bin)) gray))
       (seq a k))
  == len (List.filter
            (fun b => ((a <=? N.to_nat (Byte.to_N b))
                       && (N.to_nat (Byte.to_N b) <? a + k))%nat) gray).
Proof.
  unfold len.
  rewrite (np_sum_counts
             (fun bin =>
                length (List.filter (fun b => N.eqb (Byte.to_N b) (N.of_nat bin)) gray))).
  now rewrite bins_count.
Qed.

(** Every pixel is in one of the 256 bins. *)
Lemma hist_total (gray : list Byte.byte) : np_sum (calcHist gray) == len gray.
Proof.
  unfold calcHist. rewrite np_sum_bins. unfold len.
  rewrite (filter_length_ext _ (fun _ => true)).
  - now rewrite List.filter_true.
  - intros b. pose proof (Byte.to_N_bounded b).
    destruct (Nat.leb_spec 0 (N.to_nat (Byte.to_N b))),
      (Nat.ltb_spec (N.to_nat (Byte.to_N b)) (0 + 256)); cbn; try reflexivity; lia.
Qed.

(** The normalised histogram summed over the bins [a .. a + k - 1] is the
    share of the pixels in that range. *)
Lemma hist_normalized_bins (gray : list Byte.byte) (a k : nat) (lo hi : N) :
  (N.of_nat a = lo)%N -> (N.of_nat (a + k) = hi + 1)%N ->
  np_sum
    (map (fun count => count / np_sum (calcHist gray))
       (map (fun bin =>
               len (List.filter (fun b => N.eqb (Byte.to_N b) (N.of_nat bin)) gray))
          (seq a k)))
  == share gray lo hi.
Proof.
  intros Hlo Hhi. rewrite np_sum_scaled, np_sum_bins, hist_total.
  unfold share, len.
  rewrite (filter_length_ext _
             (fun b => (lo <=? Byte.to_N b)%N && (Byte.to_N b <=? hi)%N)).
  - reflexivity.
  - intros b.
    destruct (Nat.leb_spec a (N.to_nat (Byte.to_N b))),
      (Nat.ltb_spec (N.to_nat (Byte.to_N b)) (a + k)),
      (N.leb_spec lo (Byte.to_N b)), (N.leb_spec (Byte.to_N b) hi);
      cbn; try reflexivity; exfalso; lia.
Qed.

(** The symbolic root compares as the real square root does. *)
Lemma lt_root_sqrt (c v : Q) :
  0 <= c -> 0 <= v ->
  (Np.lt_root c (Np.sqrt v) = true <-> (Q2R c < sqrt (Q2R v))%R).
Proof.
  intros Hc Hv. unfold Np.lt_root. cbn [Np.radicand].
  apply Qlt_bool_false_iff in Hc as Hc'. rewrite Hc'. rewrite Qlt_bool_iff.
  apply Qle_Rle in Hc, Hv. rewrite RMicromega.Q2R_0 in Hc, Hv.
  split; intros H.
  - apply Qlt_Rlt in H. rewrite Q2R_mult in H.
    rewrite <- (sqrt_square (Q2R c)) by exact Hc.
    apply sqrt_lt_1_alt. split; [| exact H].
    apply Rmult_le_pos; exact Hc.
  - apply Rlt_Qlt. rewrite Q2R_mult.
    rewrite <- (sqrt_sqrt (Q2R v)) by exact Hv.
    apply Rmult_le_0_lt_compat; assumption.
Qed.

Lemma Qlt_bool_Qeq (a a' b : Q) : a == a' -> Np.Qlt_bool a b = Np.Qlt_bool a' b.
Proof. intros H. unfold Np.Qlt_bool. now rewrite H. Qed.

Lemma _analyze_lighting_nonempty
    (rgb2gray : Byte.byte * Byte.byte * Byte.byte -> Byte.byte) (frame_array : Frame) :
  pixels frame_array <> [] ->
  _analyze_lighting rgb2gray frame_array =
    let gray := map rgb2gray (pixels frame_array) in
    let brightness := np_mean (map intensity gray) in
    let contrast := np_std (map intensity gray) in
    let overexposed_ratio :=
      np_sum (skipn 200 (map (fun count => count / np_sum (calcHist gray)) (calcHist gray))) in
    let underexposed_ratio :=
      np_sum (firstn 50 (map (fun count => count / np_sum (calcHist gray)) (calcHist gray))) in
    if (Np.Qlt_bool 100 brightness && Np.Qlt_bool brightness 180)
       && Np.lt_root 30 contrast
       && Np.Qlt_bool overexposed_ratio 0.1
       && Np.Qlt_bool underexposed_ratio 0.1 then A
    else if (Np.Qlt_bool 80 brightness && Np.Qlt_bool brightness 200)
       && Np.lt_root 20 contrast
       && Np.Qlt_bool overexposed_ratio 0.2
       && Np.Qlt_bool underexposed_ratio 0.2 then B
    else C.
Proof.
  intros Hne. unfold _analyze_lighting, cvtColor_RGB2GRAY.
  destruct (pixels frame_array) as [| p ps]; [contradiction | reflexivity].
Qed.

Lemma overexposed_share (gray : list Byte.byte) :
  np_sum (skipn 200 (map (fun count => count / np_sum (calcHist gray)) (calcHist gray)))
  == share gray 200 255.
Proof.
  unfold calcHist at 2. rewrite !List.skipn_map.
  change (skipn 200 (seq 0 256)) with (seq 200 56).
  apply hist_normalized_bins; reflexivity.
Qed.

Lemma underexposed_share (gray : list Byte.byte) :
  np_sum (firstn 50 (map (fun count => count / np_sum (calcHist gray)) (calcHist gray)))
  == share gray 0 49.
Proof.
  unfold calcHist at 2. rewrite !List.firstn_map.
  change (firstn 50 (seq 0 256)) with (seq 0 50).
  apply hist_normalized_bins; reflexivity.
Qed.


End LightingFacts.

(** ** Analysis engine *)

Section EngineFacts.

Import Engine.

Variable pose_model : Frame -> Result (option (list Keypoint)).
Variable rgb2gray : Byte.byte * Byte.byte * Byte.byte -> Byte.byte.

(** No path through the worker writes a field of the processor. *)
Lemma _analyze_frame_sync_state (frame_array : Frame) (self : SpeechCoachProcessor) :
  exists analysis,
    _analyze_frame_sync pose_model rgb2gray frame_array self = (Ok analysis, self).
Proof.
  unfold _analyze_frame_sync, try_except, bind, get, call, ret.
  destruct (_shutdown self); [eexists; reflexivity |].
  destruct (pose_model frame_array) as [[keypoints |] | e]; eexists; reflexivity.
Qed.

(** The worker falls back on the stored result when the estimator raises or
    finds nobody, and when the processor was closed before it started. *)
Lemma _analyze_frame_sync_fallback (frame_array : Frame) (self : SpeechCoachProcessor) :
  _shutdown self = true
  \/ pose_model frame_array = Ok None
  \/ (exists e, pose_model frame_array = Raise e) ->
  _analyze_frame_sync pose_model rgb2gray frame_array self
  = (Ok (_last_analysis self), self).
Proof.
  unfold _analyze_frame_sync, try_except, bind, get, call, ret.
  intros [H | [H | [e H]]].
  - now rewrite H.
  - rewrite H. now destruct (_shutdown self).
  - rewrite H. now destruct (_shutdown self).
Qed.


(** After [close] the pool refuses the work, so the call comes back at once
    with the stored result and writes nothing. *)
Lemma _analyze_frame_async_closed
    (frame_array : Frame) (timed_out : bool) (self : SpeechCoachProcessor) :
  pool_shutdown (executor self) = true ->
  _analyze_frame_async pose_model rgb2gray frame_array timed_out self
  = (Ok (_last_analysis self), self).
Proof.
  intros H.
  unfold _analyze_frame_async, try_except, bind, submit, get, ret.
  now rewrite H.
Qed.

Lemma _analyze_frame_closed
    (frame : Result Frame) (timed_out : bool) (self : SpeechCoachProcessor) :
  pool_shutdown (executor self) = true ->
  _analyze_frame pose_model rgb2gray frame timed_out self = (Ok tt, self).
Proof.
  intros H. unfold _analyze_frame, try_except, bind, call, get, put, ret.
  destruct frame as [frame_array | e]; [| reflexivity].
  rewrite (_analyze_frame_async_closed frame_array timed_out self H).
  now destruct self.
Qed.

(** C9. Once [close] has been called, the pool accepts no new work
    ([submit] raises and its count of accepted work stays as it was), and
    every analysis that follows, one or many, by either entry point, returns
    the result that was stored at the time of [close] and leaves the
    processor exactly as [close] left it, having handed nothing to the pool.
    A worker that was already queued and only starts now returns the stored
    result too, without consulting the estimator. *)
Theorem no_work_after_close (self : SpeechCoachProcessor) :
  let closed := snd (close self) in
  let last := get_latest_analysis self in
  get_latest_analysis closed = last
  /\ submitted (executor closed) = submitted (executor self)
  /\ (exists msg, submit closed = (Raise (RuntimeError msg), closed))
  /\ (forall frame_array timed_out,
        _analyze_frame_async pose_model rgb2gray frame_array timed_out closed
        = (Ok last, closed))
  /\ (forall frames,
        analyze_all pose_model rgb2gray frames closed
        = (Ok (map (fun _ => last) frames), closed))
  /\ (forall frames, consume pose_model rgb2gray frames closed = (Ok tt, closed))
  /\ (forall (estimator : Frame -> Result (option (list Keypoint))) frame_array,
        _analyze_frame_sync estimator rgb2gray frame_array closed = (Ok last, closed)).
Proof.
  intros closed last.
  assert (Hpool : pool_shutdown (executor closed) = true) by reflexivity.
  assert (Hlast : _last_analysis closed = last) by reflexivity.
  split; [reflexivity |]. split; [reflexivity |]. split; [eexists; reflexivity |].
  split; [| split; [| split]].
  - intros frame_array timed_out.
    rewrite (_analyze_frame_async_closed _ _ _ Hpool). now rewrite Hlast.
  - induction frames as [| [frame_array timed_out] frames IH]; [reflexivity |].
    cbn [analyze_all map]. unfold bind at 1.
    rewrite (_analyze_frame_async_closed _ _ _ Hpool).
    unfold bind at 1. rewrite IH. now rewrite Hlast.
  - induction frames as [| [frame timed_out] frames IH]; [reflexivity |].
    cbn [consume]. unfold bind.
    rewrite (_analyze_frame_closed _ _ _ Hpool). exact IH.
  - intros estimator frame_array. reflexivity.
Qed.

End EngineFacts.

(** ** Result broadcaster *)

Section ServerFacts.

Import Engine Server.

Variable send : Client -> Message -> Result unit.

(** The sending loop: the clients whose send raised are collected, the
    others have the message, in the order of the iteration. *)
Lemma send_loop (message : Message) (l : list Client)
    (acc : gset Client) (self : SpeechCoachWebSocketServer) :
  for_in l
    (fun client (disconnected_clients : gset Client) =>
       try_except
         (bind (client_send send client message) (fun _ => ret disconnected_clients))
         (fun e =>
            match e with
            | ConnectionClosed => ret ({[client]} ∪ disconnected_clients)
            | _ => ret ({[client]} ∪ disconnected_clients)
            end))
    acc self
  = (Ok (list_to_set (List.filter (fun c => negb (accepts send message c)) l) ∪ acc),
     {| clients := clients self;
        processor := processor self;
        delivered :=
          delivered self
          ++ map (fun c => (c, message)) (List.filter (accepts send message) l) |}).
Proof.
  revert acc self. induction l as [| c l IH]; intros acc self.
  - cbn [for_in List.filter map list_to_set]. unfold ret.
    rewrite union_empty_l_L, app_nil_r. now destruct self.
  - cbn [for_in List.filter].
    destruct (send c message) as [u | e] eqn:Hs.
    + assert (Ha : accepts send message c = true)
        by (unfold accepts; now rewrite Hs).
      rewrite Ha. cbn [negb map].
      unfold bind at 1, try_except at 1, bind at 1, client_send at 1.
      rewrite Hs. unfold ret at 1. cbv beta iota. rewrite IH.
      cbn [clients processor delivered]. rewrite <- app_assoc. reflexivity.
    + assert (Ha : accepts send message c = false)
        by (unfold accepts; now rewrite Hs).
      rewrite Ha. cbn [negb list_to_set].
      unfold bind at 1, try_except at 1, bind at 1, client_send at 1.
      rewrite Hs. cbv beta iota.
      assert (He : (match e with
                    | ConnectionClosed => ret ({[c]} ∪ acc)
                    | _ => ret ({[c]} ∪ acc)
                    end : M SpeechCoachWebSocketServer (gset Client)) self
                   = (Ok ({[c]} ∪ acc), self)) by (destruct e; reflexivity).
      rewrite He. cbv beta iota. rewrite IH.
      now rewrite (assoc_L (∪)), (comm_L (∪) _ {[c]}).
Qed.

Lemma unregister_loop (l : list Client) (self : SpeechCoachWebSocketServer) :
  for_in l (fun client (_ : unit) => unregister_client client) tt self
  = (Ok tt,
     {| clients := clients self ∖ list_to_set l;
        processor := processor self;
        delivered := delivered self |}).
Proof.
  revert self. induction l as [| c l IH]; intros self.
  - cbn [for_in list_to_set]. unfold ret.
    rewrite difference_empty_L. now destruct self.
  - cbn [for_in]. unfold bind, unregister_client at 1. rewrite IH.
    cbn [clients processor delivered list_to_set].
    now rewrite difference_difference_l_L.
Qed.

(** What a broadcast does: it never raises; the clients whose send raised
    are unregistered; the others have the message. *)
Lemma broadcast_analysis_spec (analysis : AnalysisResult)
    (self : SpeechCoachWebSocketServer) :
  let message := {| msg_type := "analysis"; msg_data := analysis |} in
  exists self',
    broadcast_analysis send analysis self = (Ok tt, self')
    /\ processor self' = processor self
    /\ (forall c, c ∈ clients self'
                  <-> c ∈ clients self /\ accepts send message c = true)
    /\ delivered self'
       = delivered self
         ++ map (fun c => (c, message))
              (List.filter (accepts send message) (elements (clients self))).
Proof.
  intros message. unfold broadcast_analysis, bind at 1, get.
  destruct (decide (clients self = ∅)) as [Hempty | Hne].
  - exists self. split; [reflexivity |]. split; [reflexivity |]. split.
    + intros c. rewrite Hempty.
      pose proof (not_elem_of_empty (C:=gset Client) c) as Hnot. tauto.
    + rewrite Hempty, elements_empty. cbn. now rewrite app_nil_r.
  - unfold bind at 1. fold message. rewrite send_loop.
    rewrite unregister_loop. cbn [clients processor delivered].
    eexists. split; [reflexivity |]. cbn [clients processor delivered].
    split; [reflexivity |]. split; [| reflexivity].
    intros c. rewrite list_to_set_elements_L.
    rewrite elem_of_difference, elem_of_union, elem_of_list_to_set.
    rewrite list_elem_of_In, List.filter_In, <- list_elem_of_In, elem_of_elements.
    rewrite negb_true_iff.
    pose proof (not_elem_of_empty (C:=gset Client) c) as Hnot.
    destruct (accepts send message c); intuition congruence.
Qed.

(** C7. When the send to exactly one of the [K] registered clients raises,
    a broadcast still sends to each of the other [K - 1] and those sends go
    through, once each; the client that failed is no longer registered when
    the broadcast returns; and the broadcast returns normally. *)
Theorem broadcast_survives_one_failure (analysis : AnalysisResult)
    (self : SpeechCoachWebSocketServer) (K : nat) (failing : Client) :
  let message := {| msg_type := "analysis"; msg_data := analysis |} in
  size (clients self) = K ->
  failing ∈ clients self ->
  accepts send message failing = false ->
  (forall c, c ∈ clients self -> c <> failing -> accepts send message c = true) ->
  exists self' sent,
    broadcast_analysis send analysis self = (Ok tt, self')
    /\ delivered self' = delivered self ++ sent
    /\ (sent ≡ₚ map (fun c => (c, message)) (elements (clients self ∖ {[failing]})))
    /\ length sent = (K - 1)%nat
    /\ clients self' = clients self ∖ {[failing]}
    /\ (failing ∉ clients self')
    /\ size (clients self') = (K - 1)%nat.
Proof.
  intros message HK Hin Hfail Hothers.
  destruct (broadcast_analysis_spec analysis self)
    as (self' & Hrun & _ & Hclients & Hsent).
  fold message in Hclients, Hsent.
  assert (Hset : clients self' = clients self ∖ {[failing]}).
  { apply set_eq. intros c.
    rewrite Hclients, elem_of_difference, elem_of_singleton.
    split.
    - intros [Hc Hok]. split; [exact Hc |]. intros ->. congruence.
    - intros [Hc Hne]. split; [exact Hc |]. now apply Hothers. }
  assert (Hsize : size (clients self ∖ {[failing]}) = (K - 1)%nat).
  { rewrite size_difference by (apply singleton_subseteq_l; exact Hin).
    now rewrite size_singleton, HK. }
  assert (Hperm : List.filter (accepts send message) (elements (clients self))
                  ≡ₚ elements (clients self ∖ {[failing]})).
  { apply NoDup_Permutation.
    - apply NoDup_ListNoDup, List.NoDup_filter, NoDup_ListNoDup, NoDup_elements.
    - apply NoDup_elements.
    - intros c.
      rewrite list_elem_of_In, List.filter_In, <- list_elem_of_In, !elem_of_elements.
      rewrite <- Hset. symmetry. apply Hclients. }
  exists self',
    (map (fun c => (c, message))
       (List.filter (accepts send message) (elements (clients self)))).
  split; [exact Hrun |]. split; [exact Hsent |].
  split; [now apply Permutation_map |].
  split.
  - rewrite length_map, (Permutation_length Hperm). exact Hsize.
  - split; [exact Hset |]. split.
    + rewrite Hset, elem_of_difference, elem_of_singleton. tauto.
    + now rewrite Hset.
Qed.

(** The decoders, the estimator and the grey conversion that
    [process_frame] goes through. *)
Variable b64decode : string -> Result (list Byte.byte).
Variable Image : Type.
Variable Image_open : list Byte.byte -> Result Image.
Variable np_array : Image -> Frame.
Variable pose_model : Frame -> Result (option (list Keypoint)).
Variable rgb2gray : Byte.byte * Byte.byte * Byte.byte -> Byte.byte.

(** C8. When the payload of a frame message cannot be decoded, because the
    base64 decoding raises or because the decoded bytes are not an image that
    can be opened, [process_frame] does what a broadcast of a result with
    the four grades C and an explanation that starts with
    "Error processing frame" does: it returns normally, every registered
    client whose send goes through has received that result in an
    ["analysis"] message, and the processor is untouched. *)
Theorem malformed_frame_is_answered
    (frame_data : string) (timed_out : bool) (e : Exn)
    (self : SpeechCoachWebSocketServer) :
  b64decode frame_data = Raise e
  \/ (exists image_data,
        b64decode frame_data = Ok image_data /\ Image_open image_data = Raise e) ->
  exists error_analysis,
    let message := {| msg_type := "analysis"; msg_data := error_analysis |} in
    eye_contact error_analysis = C
    /\ framing error_analysis = C
    /\ posture error_analysis = C
    /\ lighting error_analysis = C
    /\ String.prefix "Error processing frame" (explanation error_analysis) = true
    /\ process_frame send b64decode Image Image_open np_array pose_model rgb2gray
         frame_data timed_out self
       = broadcast_analysis send error_analysis self
    /\ exists self',
         process_frame send b64decode Image Image_open np_array pose_model rgb2gray
           frame_data timed_out self
         = (Ok tt, self')
         /\ processor self' = processor self
         /\ (forall c, c ∈ clients self -> accepts send message c = true ->
                       (c, message) ∈ delivered self').
Proof.
  intros Hbad.
  exists {| eye_contact := C; framing := C; posture := C; lighting := C;
            explanation :=
              match e with
              | BinasciiError _ => "Error processing frame - invalid image data"
              | _ => "Error processing frame: " ++ str e
              end |}.
  cbv zeta. cbn [eye_contact framing posture lighting explanation].
  do 4 (split; [reflexivity |]).
  split; [destruct e; reflexivity |].
  assert (Hrun : process_frame send b64decode Image Image_open np_array pose_model
                   rgb2gray frame_data timed_out self
                 = broadcast_analysis send
                     {| eye_contact := C; framing := C; posture := C; lighting := C;
                        explanation :=
                          match e with
                          | BinasciiError _ =>
                              "Error processing frame - invalid image data"
                          | _ => "Error processing frame: " ++ str e
                          end |} self).
  { unfold process_frame, try_except, bind at 1, call at 1.
    destruct Hbad as [Hb64 | (image_data & Hb64 & Himg)]; rewrite Hb64.
    - destruct e; reflexivity.
    - unfold bind at 1, call at 1. rewrite Himg. destruct e; reflexivity. }
  split; [exact Hrun |].
  rewrite Hrun.
  match goal with
  | |- context [broadcast_analysis send ?a self] =>
      destruct (broadcast_analysis_spec a self) as (self' & Hb & Hproc & _ & Hsent)
  end.
  exists self'. split; [exact Hb |]. split; [exact Hproc |].
  intros c Hc Hok. rewrite Hsent. apply elem_of_app. right.
  apply list_elem_of_In, List.in_map_iff. exists c. split; [reflexivity |].
  apply List.filter_In. split; [| exact Hok].
  apply list_elem_of_In, elem_of_elements, Hc.
Qed.

End ServerFacts.

(** ** The properties at work on the sample data *)

Example sideways_grades : Classifier._analyze_posture 0.5 sideways = A.
Proof. vm_compute. reflexivity. Qed.

Example well_lit_grade : Classifier._analyze_lighting green well_lit = A.
Proof. vm_compute. reflexivity. Qed.

Lemma found_in_sample (keypoints : list Keypoint) (m : Spec.Landmark) (k : Keypoint) :
  keypoints !! Spec.row m = Some k ->
  Np.Qlt_bool 0.5 (kp_conf k) = true ->
  Spec.found 0.5 keypoints m k.
Proof. intros Hrow Hconf. split; [exact Hrow | now apply Qlt_bool_iff]. Defined.

(** The eleven first rows of [upright] have no hips: posture is C. *)
Lemma missing_keypoint_grades_C_witness :
  In Spec.left_hip (Spec.required Spec.Posture)
  /\ Spec.missing 0.5 (take 11 upright) Spec.left_hip
  /\ Spec.grade_of 0.5 green Spec.Posture (take 11 upright) well_lit = C.
Proof.
  assert (Hin : In Spec.left_hip (Spec.required Spec.Posture))
    by (cbn; auto).
  assert (Hmiss : Spec.missing 0.5 (take 11 upright) Spec.left_hip)
    by (left; reflexivity).
  split; [exact Hin |]. split; [exact Hmiss |].
  exact (missing_keypoint_grades_C 0.5 green Spec.Posture (take 11 upright) well_lit
           Spec.left_hip Hin Hmiss).
Defined.



(** [sideways] has its shoulders at the same x and its hips far away. *)
Lemma posture_coincident_shoulders_witness :
  Spec.found 0.5 sideways Spec.left_shoulder (mkKeypoint 320 190 0.9)
  /\ Spec.found 0.5 sideways Spec.right_shoulder (mkKeypoint 320 210 0.9)
  /\ Spec.found 0.5 sideways Spec.left_hip (mkKeypoint 300 460 0.9)
  /\ Spec.found 0.5 sideways Spec.right_hip (mkKeypoint 330 470 0.9)
  /\ 320 == 320
  /\ Spec.shoulder_tilt (mkKeypoint 320 190 0.9) (mkKeypoint 320 210 0.9) = Np.Fin 0
  /\ Spec.spine_angle (mkKeypoint 320 190 0.9) (mkKeypoint 320 210 0.9)
       (mkKeypoint 300 460 0.9) (mkKeypoint 330 470 0.9) = Np.Fin 0
  /\ Classifier._analyze_posture 0.5 sideways = A.
Proof.
  assert (Hls : Spec.found 0.5 sideways Spec.left_shoulder (mkKeypoint 320 190 0.9))
    by (apply found_in_sample; reflexivity).
  assert (Hrs : Spec.found 0.5 sideways Spec.right_shoulder (mkKeypoint 320 210 0.9))
    by (apply found_in_sample; reflexivity).
  assert (Hlh : Spec.found 0.5 sideways Spec.left_hip (mkKeypoint 300 460 0.9))
    by (apply found_in_sample; reflexivity).
  assert (Hrh : Spec.found 0.5 sideways Spec.right_hip (mkKeypoint 330 470 0.9))
    by (apply found_in_sample; reflexivity).
  assert (Hx : 320 == 320) by reflexivity.
  split; [exact Hls |]. split; [exact Hrs |]. split; [exact Hlh |].
  split; [exact Hrh |]. split; [exact Hx |].
  exact (posture_coincident_shoulders 0.5 sideways _ _ _ _ Hls Hrs Hlh Hrh Hx).
Defined.



(** Of three clients the second has gone away: the first and the third get
    the message, the second is unregistered. *)
Lemma broadcast_survives_one_failure_witness :
  let analysis := Engine.get_latest_analysis (Engine.__init__ 0.5) in
  let message := {| Server.msg_type := "analysis"; Server.msg_data := analysis |} in
  size (Server.clients three_clients) = 3%nat
  /\ 2%nat ∈ Server.clients three_clients
  /\ Server.accepts second_is_gone message 2%nat = false
  /\ exists self' sent,
       Server.broadcast_analysis second_is_gone analysis three_clients = (Ok tt, self')
       /\ Server.delivered self' = Server.delivered three_clients ++ sent
       /\ length sent = 2%nat
       /\ Server.clients self' = Server.clients three_clients ∖ {[ 2%nat ]}.
Proof.
  intros analysis message.
  assert (HK : size (Server.clients three_clients) = 3%nat) by (vm_compute; reflexivity).
  assert (Hin : 2%nat ∈ Server.clients three_clients)
    by (cbn [three_clients Server.clients]; set_solver).
  assert (Hfail : Server.accepts second_is_gone message 2%nat = false) by reflexivity.
  assert (Hothers : forall c, c ∈ Server.clients three_clients -> c <> 2%nat ->
                              Server.accepts second_is_gone message c = true).
  { intros c _ Hne. unfold Server.accepts, second_is_gone.
    destruct (Nat.eqb_spec c 2); [contradiction | reflexivity]. }
  split; [exact HK |]. split; [exact Hin |]. split; [exact Hfail |].
  destruct (broadcast_survives_one_failure second_is_gone analysis three_clients
              3%nat 2%nat HK Hin Hfail Hothers)
    as (self' & sent & Hrun & Hsent & _ & Hlen & Hset & _).
  exists self', sent. repeat split; assumption.
Defined.

(** A payload with bad padding, and one that decodes to bytes that are not
    an image. *)
Lemma malformed_frame_is_answered_witness :
  (bad_padding "%%%" = Raise (BinasciiError "Incorrect padding")
   \/ (exists image_data,
         bad_padding "%%%" = Ok image_data
         /\ not_an_image image_data = Raise (BinasciiError "Incorrect padding")))
  /\ exists error_analysis self',
       Server.process_frame second_is_gone bad_padding Frame not_an_image
         (fun image => image) nobody green "%%%" false three_clients
       = (Ok tt, self')
       /\ eye_contact error_analysis = C
       /\ (1%nat, {| Server.msg_type := "analysis"; Server.msg_data := error_analysis |})
          ∈ Server.delivered self'.
Proof.
  assert (H : bad_padding "%%%" = Raise (BinasciiError "Incorrect padding")
              \/ (exists image_data,
                    bad_padding "%%%" = Ok image_data
                    /\ not_an_image image_data = Raise (BinasciiError "Incorrect padding")))
    by (left; reflexivity).
  split; [exact H |].
  destruct (malformed_frame_is_answered second_is_gone bad_padding Frame not_an_image
              (fun image => image) nobody green "%%%" false _ three_clients H)
    as (error_analysis & Heye & _ & _ & _ & _ & _ & self' & Hrun & _ & Hall).
  exists error_analysis, self'. split; [exact Hrun |]. split; [exact Heye |].
  apply Hall; [cbn [three_clients Server.clients]; set_solver | reflexivity].
Defined.

(** * Further properties of the code *)

(** ** Graders of the pose *)

Section GraderFacts.

Import Classifier Spec.

Variable conf_threshold : Q.

Ltac use_found H :=
  let E := fresh "E" in
  pose proof (keypoint_at_found _ _ _ _ H) as E; cbn [row] in E; rewrite E; clear E.

(** [_analyze_eye_contact] and [_analyze_framing] once their three key
    points are found. *)
Lemma _analyze_eye_contact_grades
    (keypoints : list Keypoint) (width height : Z) (n l r : Keypoint) :
  found conf_threshold keypoints nose n ->
  found conf_threshold keypoints left_eye l ->
  found conf_threshold keypoints right_eye r ->
  _analyze_eye_contact conf_threshold keypoints width height =
    let offset := horizontal_offset (midpoint (kp_x l) (kp_x r)) width in
    let tilt := tilt_ratio l r in
    if (offset <? 0.1)%np && (tilt <? 0.1)%np then A
    else if (offset <? 0.2)%np && (tilt <? 0.2)%np then B else C.
Proof.
  intros Hn Hl Hr. unfold _analyze_eye_contact.
  use_found Hn. use_found Hl. use_found Hr.
  cbv zeta. rewrite Qabs_sub_pos.
  unfold horizontal_offset, midpoint, tilt_ratio.
  destruct (Qeq_bool (kp_x l) (kp_x r)); reflexivity.
Qed.

Lemma _analyze_framing_grades
    (keypoints : list Keypoint) (width height : Z) (n l r : Keypoint) :
  found conf_threshold keypoints nose n ->
  found conf_threshold keypoints left_shoulder l ->
  found conf_threshold keypoints right_shoulder r ->
  _analyze_framing conf_threshold keypoints width height =
    let offset := horizontal_offset (midpoint (kp_x l) (kp_x r)) width in
    let ratio := frame_ratio l r width in
    let head := head_y_ratio n height in
    if (offset <? 0.15)%np
       && ((0.1 <? ratio)%np && (ratio <? 0.4)%np)
       && ((0.1 <? head)%np && (head <? 0.4)%np) then A
    else if (offset <? 0.25)%np
       && ((0.05 <? ratio)%np && (ratio <? 0.5)%np)
       && ((0.05 <? head)%np && (head <? 0.5)%np) then B
    else C.
Proof.
  intros Hn Hl Hr. unfold _analyze_framing.
  use_found Hn. use_found Hl. use_found Hr. reflexivity.
Qed.

(** A key point is either found or missing. *)
Lemma found_or_missing (keypoints : list Keypoint) (m : Landmark) :
  (exists k, found conf_threshold keypoints m k) \/ missing conf_threshold keypoints m.
Proof.
  unfold found, missing.
  destruct (keypoints !! row m) as [k |] eqn:Hrow; [| right; left; reflexivity].
  destruct (Qlt_le_dec conf_threshold (kp_conf k)) as [H | H].
  - left. exists k. split; [reflexivity | exact H].
  - right. right. exists k. split; [reflexivity | exact H].
Qed.


Lemma keypoint_at_relax (stricter : Q) (keypoints : list Keypoint) (i : nat)
    (k : Keypoint) :
  conf_threshold <= stricter ->
  keypoint_at stricter keypoints i = Some k ->
  keypoint_at conf_threshold keypoints i = Some k.
Proof.
  intros Hle. unfold keypoint_at.
  destruct (keypoints !! i) as [k' |]; [| discriminate].
  destruct (Np.Qlt_bool stricter (kp_conf k')) eqn:E; [| discriminate].
  intros [= ->]. apply Qlt_bool_iff in E.
  assert (H : Np.Qlt_bool conf_threshold (kp_conf k) = true)
    by (apply Qlt_bool_iff; lra).
  now rewrite H.
Qed.

(** Raising the confidence threshold never promotes and never reshuffles a
    grade: each dimension keeps the grade it had, or falls to C because a
    key point it needs no longer counts. *)
Theorem raising_threshold_only_demotes
    (stricter : Q) (rgb2gray : Byte.byte * Byte.byte * Byte.byte -> Byte.byte)
    (d : Dimension) (keypoints : list Keypoint) (frame_array : Frame) :
  conf_threshold <= stricter ->
  grade_of stricter rgb2gray d keypoints frame_array
  = grade_of conf_threshold rgb2gray d keypoints frame_array
  \/ grade_of stricter rgb2gray d keypoints frame_array = C.
Proof.
  intros Hle.
  destruct d; unfold grade_of;
    [unfold _analyze_eye_contact | unfold _analyze_framing | unfold _analyze_posture
    | left; reflexivity];
    repeat match goal with
           | |- context [match keypoint_at stricter ?k ?i with _ => _ end] =>
               let E := fresh "E" in
               destruct (keypoint_at stricter k i) eqn:E;
               [apply (keypoint_at_relax _ _ _ _ Hle) in E; rewrite E
               | right; reflexivity]
           end;
    left; reflexivity.
Qed.

Lemma keypoint_at_same_row (keypoints keypoints' : list Keypoint) (i : nat) :
  keypoints !! i = keypoints' !! i ->
  keypoint_at conf_threshold keypoints i = keypoint_at conf_threshold keypoints' i.
Proof. intros H. unfold keypoint_at. now rewrite H. Qed.

(** A grade reads no other row of the key point array than those of the
    landmarks it requires: two observations that agree on them get the same
    grade, whatever their other rows and their lengths. *)
Theorem grade_reads_required_rows
    (rgb2gray : Byte.byte * Byte.byte * Byte.byte -> Byte.byte)
    (d : Dimension) (keypoints keypoints' : list Keypoint) (frame_array : Frame) :
  (forall m, In m (required d) -> keypoints !! row m = keypoints' !! row m) ->
  grade_of conf_threshold rgb2gray d keypoints frame_array
  = grade_of conf_threshold rgb2gray d keypoints' frame_array.
Proof.
  intros Hrows.
  assert (Hat : forall m, In m (required d) ->
                  keypoint_at conf_threshold keypoints (row m)
                  = keypoint_at conf_threshold keypoints' (row m))
    by (intros m Hm; apply keypoint_at_same_row, Hrows, Hm).
  destruct d; unfold grade_of; [| | | reflexivity].
  - unfold _analyze_eye_contact.
    pose proof (Hat nose ltac:(cbn; auto)) as E0.
    pose proof (Hat left_eye ltac:(cbn; auto)) as E1.
    pose proof (Hat right_eye ltac:(cbn; auto)) as E2.
    cbn [row] in E0, E1, E2. now rewrite E0, E1, E2.
  - unfold _analyze_framing.
    pose proof (Hat nose ltac:(cbn; auto)) as E0.
    pose proof (Hat left_shoulder ltac:(cbn; auto)) as E1.
    pose proof (Hat right_shoulder ltac:(cbn; auto)) as E2.
    cbn [row] in E0, E1, E2. now rewrite E0, E1, E2.
  - unfold _analyze_posture.
    pose proof (Hat left_shoulder ltac:(cbn; auto)) as E0.
    pose proof (Hat right_shoulder ltac:(cbn; auto)) as E1.
    pose proof (Hat left_hip ltac:(cbn; auto)) as E2.
    pose proof (Hat right_hip ltac:(cbn; auto)) as E3.
    cbn [row] in E0, E1, E2, E3. now rewrite E0, E1, E2, E3.
Qed.

End GraderFacts.

(** ** Pictures enlarged and mirrored *)

Section PictureFacts.

Import Classifier Spec Picture.

Variable conf_threshold : Q.

Lemma Qlt_bool_compat (a a' b b' : Q) :
  a == a' -> b == b' -> Np.Qlt_bool a b = Np.Qlt_bool a' b'.
Proof. intros Ha Hb. unfold Np.Qlt_bool. now rewrite Ha, Hb. Qed.

Lemma lt_same_l (v v' : Np.value) (c : Q) : same v v' -> (v <? c)%np = (v' <? c)%np.
Proof.
  destruct v, v'; cbn; try contradiction; try reflexivity.
  intros H. now apply Qlt_bool_compat.
Qed.

Lemma lt_same_r (v v' : Np.value) (c : Q) : same v v' -> (c <? v)%np = (c <? v')%np.
Proof.
  destruct v, v'; cbn; try contradiction; try reflexivity.
  intros H. now apply Qlt_bool_compat.
Qed.

Lemma same_refl (v : Np.value) : same v v.
Proof. destruct v; cbn; auto. reflexivity. Qed.

(** A quotient does not change when both terms are multiplied by the same
    positive number. *)
Lemma div_scaled (s a b a' b' : Q) :
  0 < s -> a' == s * a -> b' == s * b -> same (Np.div a' b') (Np.div a b).
Proof.
  intros Hs Ha Hb. unfold Np.div.
  assert (Eb : Qeq_bool b' 0 = Qeq_bool b 0).
  { destruct (Qeq_bool b 0) eqn:E.
    - apply Qeq_bool_iff in E. apply Qeq_bool_iff. rewrite Hb, E. ring.
    - apply Qeq_bool_neq in E.
      destruct (Qeq_bool b' 0) eqn:E'; [| reflexivity].
      apply Qeq_bool_iff in E'. rewrite Hb in E'.
      apply Qmult_integral in E'. destruct E' as [E' | E']; [lra | contradiction]. }
  assert (Ea : Qeq_bool a' 0 = Qeq_bool a 0).
  { destruct (Qeq_bool a 0) eqn:E.
    - apply Qeq_bool_iff in E. apply Qeq_bool_iff. rewrite Ha, E. ring.
    - apply Qeq_bool_neq in E.
      destruct (Qeq_bool a' 0) eqn:E'; [| reflexivity].
      apply Qeq_bool_iff in E'. rewrite Ha in E'.
      apply Qmult_integral in E'. destruct E' as [E' | E']; [lra | contradiction]. }
  assert (Es : Np.Qlt_bool 0 a' = Np.Qlt_bool 0 a).
  { destruct (Np.Qlt_bool 0 a) eqn:E.
    - apply Qlt_bool_iff in E. apply Qlt_bool_iff. rewrite Ha.
      now apply Qmult_lt_0_compat.
    - apply Qlt_bool_false_iff in E. apply Qlt_bool_false_iff. rewrite Ha.
      assert (H : 0 <= s * (- a)) by (apply Qmult_le_0_compat; lra).
      assert (H' : s * (- a) == - (s * a)) by ring.
      lra. }
  rewrite Eb, Ea, Es.
  destruct (Qeq_bool b 0) eqn:E.
  - destruct (Qeq_bool a 0); [exact I |]. destruct (Np.Qlt_bool 0 a); exact I.
  - apply Qeq_bool_neq in E. cbn. rewrite Ha, Hb. field. split; [exact E | lra].
Qed.

Section Transport.

(** A change of the key points that keeps their confidence. *)
Variable t : Keypoint -> Keypoint.
Hypothesis t_conf : forall k, kp_conf (t k) = kp_conf k.

Lemma lookup_map (keypoints : list Keypoint) (i : nat) :
  map t keypoints !! i = option_map t (keypoints !! i).
Proof.
  revert i. induction keypoints as [| k keypoints IH]; intros [| i]; cbn; auto.
Qed.

Lemma keypoint_at_map (keypoints : list Keypoint) (i : nat) :
  keypoint_at conf_threshold (map t keypoints) i
  = option_map t (keypoint_at conf_threshold keypoints i).
Proof.
  unfold keypoint_at. rewrite lookup_map.
  destruct (keypoints !! i) as [k |]; cbn; [| reflexivity].
  rewrite t_conf. now destruct (Np.Qlt_bool conf_threshold (kp_conf k)).
Qed.

Lemma keypoint_at_Some_found (keypoints : list Keypoint) (m : Landmark) (k : Keypoint) :
  keypoint_at conf_threshold keypoints (row m) = Some k ->
  found conf_threshold keypoints m k.
Proof.
  unfold keypoint_at, found.
  destruct (keypoints !! row m) as [k' |]; [| discriminate].
  destruct (Np.Qlt_bool conf_threshold (kp_conf k')) eqn:E; [| discriminate].
  intros [= ->]. split; [reflexivity | now apply Qlt_bool_iff].
Qed.

Lemma found_map (keypoints : list Keypoint) (m : Landmark) (k : Keypoint) :
  keypoint_at conf_threshold keypoints (row m) = Some k ->
  found conf_threshold (map t keypoints) m (t k).
Proof.
  intros H. apply keypoint_at_Some_found. rewrite keypoint_at_map. now rewrite H.
Qed.

Lemma eye_contact_transport (keypoints : list Keypoint) (w w' h h' : Z) :
  (forall l r, same (horizontal_offset (midpoint (kp_x (t l)) (kp_x (t r))) w')
                    (horizontal_offset (midpoint (kp_x l) (kp_x r)) w)) ->
  (forall l r, same (tilt_ratio (t l) (t r)) (tilt_ratio l r)) ->
  _analyze_eye_contact conf_threshold (map t keypoints) w' h'
  = _analyze_eye_contact conf_threshold keypoints w h.
Proof.
  intros Hoff Htilt.
  destruct (keypoint_at conf_threshold keypoints (row nose)) as [n |] eqn:E0,
    (keypoint_at conf_threshold keypoints (row left_eye)) as [l |] eqn:E1,
    (keypoint_at conf_threshold keypoints (row right_eye)) as [r |] eqn:E2.
  1: { rewrite (_analyze_eye_contact_grades conf_threshold (map t keypoints) w' h'
                  (t n) (t l) (t r)) by (now apply found_map).
       rewrite (_analyze_eye_contact_grades conf_threshold keypoints w h n l r)
         by (now apply keypoint_at_Some_found).
       cbv zeta.
       now rewrite !(lt_same_l _ _ _ (Hoff l r)), !(lt_same_l _ _ _ (Htilt l r)). }
  all: unfold _analyze_eye_contact; rewrite !keypoint_at_map;
    cbn [row] in E0, E1, E2; rewrite ?E0, ?E1, ?E2; reflexivity.
Qed.

Lemma framing_transport (keypoints : list Keypoint) (w w' h h' : Z) :
  (forall l r, same (horizontal_offset (midpoint (kp_x (t l)) (kp_x (t r))) w')
                    (horizontal_offset (midpoint (kp_x l) (kp_x r)) w)) ->
  (forall l r, same (frame_ratio (t l) (t r) w') (frame_ratio l r w)) ->
  (forall n, same (head_y_ratio (t n) h') (head_y_ratio n h)) ->
  _analyze_framing conf_threshold (map t keypoints) w' h'
  = _analyze_framing conf_threshold keypoints w h.
Proof.
  intros Hoff Hratio Hhead.
  destruct (keypoint_at conf_threshold keypoints (row nose)) as [n |] eqn:E0,
    (keypoint_at conf_threshold keypoints (row left_shoulder)) as [l |] eqn:E1,
    (keypoint_at conf_threshold keypoints (row right_shoulder)) as [r |] eqn:E2.
  1: { rewrite (_analyze_framing_grades conf_threshold (map t keypoints) w' h'
                  (t n) (t l) (t r)) by (now apply found_map).
       rewrite (_analyze_framing_grades conf_threshold keypoints w h n l r)
         by (now apply keypoint_at_Some_found).
       cbv zeta.
       now rewrite !(lt_same_l _ _ _ (Hoff l r)),
         !(lt_same_l _ _ _ (Hratio l r)), !(lt_same_r _ _ _ (Hratio l r)),
         !(lt_same_l _ _ _ (Hhead n)), !(lt_same_r _ _ _ (Hhead n)). }
  all: unfold _analyze_framing; rewrite !keypoint_at_map;
    cbn [row] in E0, E1, E2; rewrite ?E0, ?E1, ?E2; reflexivity.
Qed.

Lemma posture_transport (keypoints : list Keypoint) :
  (forall l r, same (shoulder_tilt (t l) (t r)) (shoulder_tilt l r)) ->
  (forall l r lh rh,
     same (spine_angle (t l) (t r) (t lh) (t rh)) (spine_angle l r lh rh)) ->
  _analyze_posture conf_threshold (map t keypoints)
  = _analyze_posture conf_threshold keypoints.
Proof.
  intros Htilt Hspine.
  destruct (keypoint_at conf_threshold keypoints (row left_shoulder)) as [l |] eqn:E0,
    (keypoint_at conf_threshold keypoints (row right_shoulder)) as [r |] eqn:E1,
    (keypoint_at conf_threshold keypoints (row left_hip)) as [lh |] eqn:E2,
    (keypoint_at conf_threshold keypoints (row right_hip)) as [rh |] eqn:E3.
  1: { rewrite (_analyze_posture_grades conf_threshold (map t keypoints)
                  (t l) (t r) (t lh) (t rh)) by (now apply found_map).
       rewrite (_analyze_posture_grades conf_threshold keypoints l r lh rh)
         by (now apply keypoint_at_Some_found).
       now rewrite !(lt_same_l _ _ _ (Htilt l r)),
         !(lt_same_l _ _ _ (Hspine l r lh rh)). }
  all: unfold _analyze_posture; rewrite !keypoint_at_map;
    cbn [row] in E0, E1, E2, E3; rewrite ?E0, ?E1, ?E2, ?E3; reflexivity.
Qed.

End Transport.

Lemma Qabs_scaled (s a b : Q) : 0 < s -> Qabs (s * a - s * b) == s * Qabs (a - b).
Proof.
  intros Hs.
  assert (E : s * a - s * b == s * (a - b)) by ring.
  rewrite E, Qabs_Qmult, (Qabs_pos s) by lra. reflexivity.
Qed.

Lemma Qabs_mirrored (w a b : Q) : Qabs ((w - a) - (w - b)) == Qabs (a - b).
Proof.
  assert (E : (w - a) - (w - b) == - (a - b)) by ring.
  now rewrite E, Qabs_opp.
Qed.

Lemma Qeq_bool_scaled (s a b : Q) : 0 < s -> Qeq_bool (s * a) (s * b) = Qeq_bool a b.
Proof.
  intros Hs. destruct (Qeq_bool a b) eqn:E.
  - apply Qeq_bool_iff in E. apply Qeq_bool_iff. now rewrite E.
  - apply Qeq_bool_neq in E.
    destruct (Qeq_bool (s * a) (s * b)) eqn:E'; [| reflexivity].
    apply Qeq_bool_iff in E'. apply Qmult_inj_l in E'; [contradiction | lra].
Qed.

Lemma Qeq_bool_mirrored (w a b : Q) : Qeq_bool (w - a) (w - b) = Qeq_bool a b.
Proof.
  destruct (Qeq_bool a b) eqn:E.
  - apply Qeq_bool_iff in E. apply Qeq_bool_iff. now rewrite E.
  - apply Qeq_bool_neq in E.
    destruct (Qeq_bool (w - a) (w - b)) eqn:E'; [| reflexivity].
    apply Qeq_bool_iff in E'. exfalso. apply E. lra.
Qed.

Lemma div_same (a b a' b' : Q) : a' == a -> b' == b -> same (Np.div a' b') (Np.div a b).
Proof.
  intros Ha Hb. apply (div_scaled 1); [reflexivity | rewrite Ha; ring | rewrite Hb; ring].
Qed.



End PictureFacts.

(** ** Lighting of flat and of saturated pictures *)

Section FlatLighting.

Import Classifier Spec.

Variable rgb2gray : Byte.byte * Byte.byte * Byte.byte -> Byte.byte.

Lemma np_sum_zero (a : list Q) : (forall x, In x a -> x == 0) -> np_sum a == 0.
Proof.
  induction a as [| x a IH]; intros H; cbn [np_sum fold_right]; [reflexivity |].
  fold (np_sum a). rewrite (H x) by (left; reflexivity).
  rewrite IH by (intros y Hy; apply H; right; exact Hy). ring.
Qed.

Lemma np_sum_flat (q : Q) (a : list Q) :
  (forall x, In x a -> x = q) -> np_sum a == len a * q.
Proof.
  unfold len.
  induction a as [| x a IH]; intros H.
  - cbn. ring.
  - cbn [np_sum fold_right length]. fold (np_sum a).
    rewrite (H x) by (left; reflexivity).
    rewrite IH by (intros y Hy; apply H; right; exact Hy).
    rewrite Nat2Z.inj_succ, <- Z.add_1_r, inject_Z_plus. ring.
Qed.

Lemma len_pos {T : Type} (x : T) (a : list T) : 0 < len (x :: a).
Proof.
  unfold len. change 0 with (inject_Z 0). rewrite <- Zlt_Qlt. cbn [length]. lia.
Qed.

(** Values that are all the same have no deviation. *)
Lemma np_var_flat (q : Q) (a : list Q) :
  (forall x, In x a -> x = q) -> np_var a == 0.
Proof.
  intros H. unfold np_var. cbv zeta. unfold np_mean at 1.
  rewrite np_sum_zero; [unfold Qdiv; ring |].
  intros y Hy. apply List.in_map_iff in Hy. destruct Hy as (x & <- & Hx).
  destruct a as [| x0 a]; [contradiction |].
  assert (Hmu : np_mean (x0 :: a) == q).
  { unfold np_mean. rewrite (np_sum_flat q) by exact H.
    pose proof (len_pos x0 a). field. lra. }
  rewrite Hmu, (H x Hx). ring.
Qed.

Lemma lt_root_zero (c v : Q) : 0 <= c -> v == 0 -> Np.lt_root c (Np.sqrt v) = false.
Proof.
  intros Hc Hv. unfold Np.lt_root. cbn [Np.radicand].
  apply Qlt_bool_false_iff in Hc as Hc'. rewrite Hc'.
  apply Qlt_bool_false_iff. rewrite Hv. nra.
Qed.

(** A picture with no contrast is C: an empty one, one of a single pixel,
    one whose pixels all have the same intensity, however bright it is. *)
Theorem flat_picture_is_C (frame_array : Frame) (v : Byte.byte) :
  (forall p, In p (pixels frame_array) -> rgb2gray p = v) ->
  _analyze_lighting rgb2gray frame_array = C.
Proof.
  intros Hflat.
  assert (Hcase : pixels frame_array = [] \/ pixels frame_array <> [])
    by (destruct (pixels frame_array); [left | right]; congruence).
  destruct Hcase as [Hpx | Hne].
  - unfold _analyze_lighting, cvtColor_RGB2GRAY. now rewrite Hpx.
  - rewrite (_analyze_lighting_nonempty rgb2gray frame_array Hne). cbv zeta.
    assert (Hvar : np_var (map intensity (map rgb2gray (pixels frame_array))) == 0).
    { apply (np_var_flat (intensity v)). intros x Hx.
      apply List.in_map_iff in Hx. destruct Hx as (b & <- & Hb).
      apply List.in_map_iff in Hb. destruct Hb as (p & <- & Hp).
      now rewrite (Hflat p Hp). }
    unfold np_std.
    rewrite (lt_root_zero 30), (lt_root_zero 20) by (first [exact Hvar | lra]).
    rewrite !andb_false_r. reflexivity.
Qed.

Lemma share_all (gray : list Byte.byte) (lo hi : N) :
  gray <> [] ->
  (forall b, In b gray -> (lo <= Byte.to_N b)%N /\ (Byte.to_N b <= hi)%N) ->
  share gray lo hi == 1.
Proof.
  intros Hne Hall. unfold share.
  assert (E : List.filter
                (fun b => (lo <=? Byte.to_N b)%N && (Byte.to_N b <=? hi)%N) gray
              = gray).
  { clear Hne. induction gray as [| b gray IH]; [reflexivity |].
    cbn [List.filter].
    destruct (Hall b (or_introl eq_refl)) as [H1 H2].
    apply N.leb_le in H1, H2. rewrite H1, H2. cbn [andb].
    now rewrite IH by (intros b' Hb'; apply Hall; right; exact Hb'). }
  rewrite E. destruct gray as [| b gray]; [contradiction |].
  pose proof (len_pos b gray). field. lra.
Qed.

(** A picture that is all highlights (every intensity at 200 or above) or
    all shadows (every intensity at 49 or below) is C. *)
Theorem saturated_picture_is_C (frame_array : Frame) :
  (forall p, In p (pixels frame_array) -> (200 <= Byte.to_N (rgb2gray p))%N)
  \/ (forall p, In p (pixels frame_array) -> (Byte.to_N (rgb2gray p) <= 49)%N) ->
  _analyze_lighting rgb2gray frame_array = C.
Proof.
  intros Hsat.
  assert (Hcase : pixels frame_array = [] \/ pixels frame_array <> [])
    by (destruct (pixels frame_array); [left | right]; congruence).
  destruct Hcase as [Hpx | Hne].
  - unfold _analyze_lighting, cvtColor_RGB2GRAY. now rewrite Hpx.
  - rewrite (_analyze_lighting_nonempty rgb2gray frame_array Hne). cbv zeta.
    assert (Hgray : map rgb2gray (pixels frame_array) <> [])
      by (destruct (pixels frame_array); [contradiction | discriminate]).
    destruct Hsat as [Hhigh | Hlow].
    + assert (Hone : share (map rgb2gray (pixels frame_array)) 200 255 == 1).
      { apply share_all; [exact Hgray |]. intros b Hb.
        apply List.in_map_iff in Hb. destruct Hb as (p & <- & Hp).
        split; [apply Hhigh, Hp | apply Byte.to_N_bounded]. }
      rewrite <- overexposed_share in Hone.
      rewrite (Qlt_bool_Qeq _ 1 0.1 Hone), (Qlt_bool_Qeq _ 1 0.2 Hone).
      change (Np.Qlt_bool 1 0.1) with false. change (Np.Qlt_bool 1 0.2) with false.
      rewrite !andb_false_r. reflexivity.
    + assert (Hone : share (map rgb2gray (pixels frame_array)) 0 49 == 1).
      { apply share_all; [exact Hgray |]. intros b Hb.
        apply List.in_map_iff in Hb. destruct Hb as (p & <- & Hp).
        split; [apply N.le_0_l | apply Hlow, Hp]. }
      rewrite <- underexposed_share in Hone.
      rewrite (Qlt_bool_Qeq _ 1 0.1 Hone), (Qlt_bool_Qeq _ 1 0.2 Hone).
      change (Np.Qlt_bool 1 0.1) with false. change (Np.Qlt_bool 1 0.2) with false.
      rewrite !andb_false_r. reflexivity.
Qed.

End FlatLighting.

(** ** Explanations read back *)

Lemma append_cancel (s t t' : string) : (s ++ t = s ++ t')%string -> t = t'.
Proof.
  induction s as [| c s IH]; cbn; intros H; [exact H |].
  injection H as H. exact (IH H).
Qed.

Lemma explanation_sentences (e f p l : Grade) :
  Classifier._generate_explanation e f p l =
    (Spec.sentence Spec.EyeContact e ++ " " ++ Spec.sentence Spec.Framing f ++ " "
     ++ Spec.sentence Spec.Posture p ++ " " ++ Spec.sentence Spec.Lighting l)%string.
Proof. destruct e, f, p, l; reflexivity. Qed.

(** A sentence at the head of a text tells its grade. *)
Lemma sentence_head (d : Spec.Dimension) (g g' : Grade) (rest rest' : string) :
  (Spec.sentence d g ++ rest = Spec.sentence d g' ++ rest')%string ->
  g = g' /\ rest = rest'.
Proof.
  intros H.
  destruct d, g, g';
    first [ split; [reflexivity | exact (append_cancel _ _ _ H)]
          | cbn in H; discriminate H ].
Qed.

(** The explanation tells the four grades: two different tuples of grades
    never have the same explanation, so a client that only shows the text
    loses nothing. *)
Theorem explanation_tells_the_grades (e f p l e' f' p' l' : Grade) :
  Classifier._generate_explanation e f p l
  = Classifier._generate_explanation e' f' p' l' ->
  e = e' /\ f = f' /\ p = p' /\ l = l'.
Proof.
  rewrite !explanation_sentences. intros H.
  apply sentence_head in H. destruct H as [He H].
  apply append_cancel in H.
  apply sentence_head in H. destruct H as [Hf H].
  apply append_cancel in H.
  apply sentence_head in H. destruct H as [Hp H].
  apply append_cancel in H.
  assert (Hl : l = l').
  { assert (H' : (Spec.sentence Spec.Lighting l ++ "" =
                  Spec.sentence Spec.Lighting l' ++ "")%string).
    { clear -H. destruct l, l'; first [reflexivity | discriminate H]. }
    now apply sentence_head in H'. }
  auto.
Qed.

(** ** One analysis *)

Section AnalysisFacts.

Import Engine Results.

Variable pose_model : Frame -> Result (option (list Keypoint)).
Variable rgb2gray : Byte.byte * Byte.byte * Byte.byte -> Byte.byte.

Lemma graded_consistent (conf_threshold : Q) (keypoints : list Keypoint)
    (frame_array : Frame) :
  consistent (graded conf_threshold rgb2gray keypoints frame_array).
Proof. reflexivity. Qed.

(** The worker returns the stored result or a freshly graded one, and
    writes nothing. *)
Lemma _analyze_frame_sync_run (frame_array : Frame) (self : SpeechCoachProcessor) :
  exists analysis,
    _analyze_frame_sync pose_model rgb2gray frame_array self = (Ok analysis, self)
    /\ (analysis = _last_analysis self
        \/ exists keypoints,
             _shutdown self = false
             /\ pose_model frame_array = Ok (Some keypoints)
             /\ analysis = graded (conf_threshold self) rgb2gray keypoints frame_array).
Proof.
  unfold _analyze_frame_sync, try_except, bind, get, call, ret.
  destruct (_shutdown self) eqn:Hs; [eexists; split; [reflexivity | left; reflexivity] |].
  destruct (pose_model frame_array) as [[keypoints |] | e] eqn:Hp;
    eexists; (split; [reflexivity |]); try (left; reflexivity).
  right. exists keypoints. repeat split.
Qed.

(** The processor after [submit] was called on it once. *)
Lemma submit_run (self : SpeechCoachProcessor) :
  exists r self',
    submit self = (r, self')
    /\ conf_threshold self' = conf_threshold self
    /\ _shutdown self' = _shutdown self
    /\ _last_analysis self' = _last_analysis self
    /\ pool_shutdown (executor self') = pool_shutdown (executor self)
    /\ (pool_shutdown (executor self) = true -> self' = self /\ exists e, r = Raise e)
    /\ (pool_shutdown (executor self) = false ->
        r = Ok tt /\ submitted (executor self') = S (submitted (executor self))).
Proof.
  unfold submit. destruct (pool_shutdown (executor self)) eqn:Hpool.
  - eexists _, self. repeat split; try assumption; try discriminate.
    eexists; reflexivity.
  - eexists _, _. split; [reflexivity |]. cbn. repeat split; try discriminate.
Qed.

(** What one call of [_analyze_frame_async] does. *)
Lemma _analyze_frame_async_run
    (frame_array : Frame) (timed_out : bool) (self : SpeechCoachProcessor) :
  exists analysis self',
    _analyze_frame_async pose_model rgb2gray frame_array timed_out self
    = (Ok analysis, self')
    /\ conf_threshold self' = conf_threshold self
    /\ _shutdown self' = _shutdown self
    /\ get_latest_analysis self' = get_latest_analysis self
    /\ pool_shutdown (executor self') = pool_shutdown (executor self)
    /\ submitted (executor self')
       = (if pool_shutdown (executor self) then submitted (executor self)
          else S (submitted (executor self)))
    /\ (analysis = get_latest_analysis self
        \/ exists keypoints,
             pose_model frame_array = Ok (Some keypoints)
             /\ analysis = graded (conf_threshold self) rgb2gray keypoints frame_array).
Proof.
  unfold _analyze_frame_async, try_except, bind at 1, get_latest_analysis.
  destruct (submit_run self)
    as (r & self1 & Hsub & Hconf & Hshut & Hlast & Hpool & Hclosed & Hopen).
  rewrite Hsub.
  destruct (pool_shutdown (executor self)) eqn:Hp.
  - destruct (Hclosed eq_refl) as [-> [e ->]].
    exists (_last_analysis self), self.
    split; [destruct e; reflexivity |]. rewrite Hp. repeat split; auto.
  - destruct (Hopen eq_refl) as [-> Hcount].
    destruct timed_out.
    + exists (_last_analysis self1), self1. unfold raise, bind, get, ret.
      split; [reflexivity |]. rewrite Hlast. repeat split; auto.
    + destruct (_analyze_frame_sync_run frame_array self1) as (analysis & Hrun & Hwhat).
      exists analysis, self1. rewrite Hrun.
      split; [reflexivity |]. repeat split; auto.
      destruct Hwhat as [-> | (keypoints & _ & Hpose & ->)].
      * left. exact Hlast.
      * right. exists keypoints. split; [exact Hpose |]. now rewrite Hconf.
Qed.

(** An analysis never raises and never writes anything but the count of the
    work the pool has accepted, which it raises by one when the pool is open
    and leaves alone when it is shut.  What it returns is the stored result
    or the grading of the key points that the estimator found in this
    frame. *)
Theorem analysis_only_counts
    (frame_array : Frame) (timed_out : bool) (self : SpeechCoachProcessor) :
  exists analysis self',
    _analyze_frame_async pose_model rgb2gray frame_array timed_out self
    = (Ok analysis, self')
    /\ conf_threshold self' = conf_threshold self
    /\ _shutdown self' = _shutdown self
    /\ get_latest_analysis self' = get_latest_analysis self
    /\ pool_shutdown (executor self') = pool_shutdown (executor self)
    /\ submitted (executor self')
       = (if pool_shutdown (executor self) then submitted (executor self)
          else S (submitted (executor self)))
    /\ (analysis = get_latest_analysis self
        \/ exists keypoints,
             pose_model frame_array = Ok (Some keypoints)
             /\ analysis = graded (conf_threshold self) rgb2gray keypoints frame_array).
Proof. exact (_analyze_frame_async_run frame_array timed_out self). Qed.

Lemma completed_analysis_run
    (frame_array : Frame) (keypoints : list Keypoint) (self : SpeechCoachProcessor) :
  pool_shutdown (executor self) = false ->
  _shutdown self = false ->
  pose_model frame_array = Ok (Some keypoints) ->
  _analyze_frame_async pose_model rgb2gray frame_array false self
  = (Ok (graded (conf_threshold self) rgb2gray keypoints frame_array),
     {| conf_threshold := conf_threshold self;
        executor := {| pool_shutdown := false;
                       submitted := S (submitted (executor self)) |};
        _shutdown := _shutdown self;
        _last_analysis := _last_analysis self |}).
Proof.
  intros Hpool Hrunning Hpose.
  unfold _analyze_frame_async, try_except, bind at 1, submit. rewrite Hpool.
  unfold _analyze_frame_sync, try_except, bind, get, call, ret.
  cbn [_shutdown conf_threshold]. rewrite Hrunning, Hpose. reflexivity.
Qed.

(** When the pool is open, the processor running, the worker in time and
    somebody in the picture, the analysis returns the grading of the key
    points found.  [_analyze_frame_async] alone does not store it: the
    stored result changes only when the call comes through
    [_analyze_frame], which stores what was returned. *)
Theorem completed_analysis_is_stored
    (frame_array : Frame) (keypoints : list Keypoint) (self : SpeechCoachProcessor) :
  pool_shutdown (executor self) = false ->
  _shutdown self = false ->
  pose_model frame_array = Ok (Some keypoints) ->
  let fresh := graded (conf_threshold self) rgb2gray keypoints frame_array in
  (exists self',
     _analyze_frame_async pose_model rgb2gray frame_array false self = (Ok fresh, self')
     /\ get_latest_analysis self' = get_latest_analysis self)
  /\ (exists self',
        _analyze_frame pose_model rgb2gray (Ok frame_array) false self = (Ok tt, self')
        /\ get_latest_analysis self' = fresh
        /\ submitted (executor self') = S (submitted (executor self))).
Proof.
  intros Hpool Hrunning Hpose fresh.
  assert (Hasync :
            _analyze_frame_async pose_model rgb2gray frame_array false self
            = (Ok fresh,
               {| conf_threshold := conf_threshold self;
                  executor := {| pool_shutdown := false;
                                 submitted := S (submitted (executor self)) |};
                  _shutdown := _shutdown self;
                  _last_analysis := _last_analysis self |})).
  { unfold _analyze_frame_async, try_except, bind at 1, submit. rewrite Hpool.
    unfold _analyze_frame_sync, try_except, bind, get, call, ret.
    cbn [_shutdown conf_threshold]. rewrite Hrunning, Hpose. reflexivity. }
  split.
  - eexists. split; [exact Hasync | reflexivity].
  - unfold _analyze_frame, try_except, bind, call, get, put. rewrite Hasync.
    eexists. split; [reflexivity |]. split; reflexivity.
Qed.

(** What one call of [_analyze_frame] does. *)
Lemma _analyze_frame_run
    (frame : Result Frame) (timed_out : bool) (self : SpeechCoachProcessor) :
  exists self',
    _analyze_frame pose_model rgb2gray frame timed_out self = (Ok tt, self')
    /\ conf_threshold self' = conf_threshold self
    /\ _shutdown self' = _shutdown self
    /\ pool_shutdown (executor self') = pool_shutdown (executor self)
    /\ submitted (executor self')
       = (if converted frame && negb (pool_shutdown (executor self))
          then S (submitted (executor self)) else submitted (executor self))
    /\ (_last_analysis self' = _last_analysis self
        \/ exists frame_array keypoints,
             frame = Ok frame_array
             /\ pose_model frame_array = Ok (Some keypoints)
             /\ _last_analysis self'
                = graded (conf_threshold self) rgb2gray keypoints frame_array).
Proof.
  unfold _analyze_frame, try_except, bind at 1, call.
  destruct frame as [frame_array | e].
  - destruct (_analyze_frame_async_run frame_array timed_out self)
      as (analysis & self1 & Hrun & Hconf & Hshut & Hlast & Hpool & Hcount & Hwhat).
    unfold bind, get, put. rewrite Hrun.
    eexists. split; [reflexivity |].
    cbn [conf_threshold _shutdown executor _last_analysis converted andb].
    split; [exact Hconf |]. split; [exact Hshut |]. split; [exact Hpool |].
    split; [rewrite Hcount; now destruct (pool_shutdown (executor self)) |].
    destruct Hwhat as [-> | (keypoints & Hpose & ->)].
    + left. reflexivity.
    + right. exists frame_array, keypoints. auto.
  - exists self. unfold ret. split; [reflexivity |]. cbn [converted andb].
    repeat split; auto.
Qed.

(** The video consumer never raises.  On an open pool it hands the pool one
    piece of work for each frame that could be converted, none for a frame
    whose conversion raised, and it leaves the threshold and the two
    shutdown flags as they were. *)
Theorem consume_dispatches_once_per_frame
    (frames : list (Result Frame * bool)) (self : SpeechCoachProcessor) :
  pool_shutdown (executor self) = false ->
  exists self',
    consume pose_model rgb2gray frames self = (Ok tt, self')
    /\ conf_threshold self' = conf_threshold self
    /\ _shutdown self' = _shutdown self
    /\ pool_shutdown (executor self') = false
    /\ submitted (executor self')
       = (submitted (executor self)
          + length (List.filter (fun frame => converted (fst frame)) frames))%nat.
Proof.
  revert self. induction frames as [| [frame timed_out] frames IH]; intros self Hpool.
  - exists self. cbn. repeat split; auto.
  - cbn [consume]. unfold bind.
    destruct (_analyze_frame_run frame timed_out self)
      as (self1 & Hrun & Hconf & Hshut & Hpool1 & Hcount & _).
    rewrite Hrun. rewrite Hpool in Hpool1.
    destruct (IH self1 Hpool1) as (self' & Hrest & Hconf' & Hshut' & Hpool' & Hcount').
    exists self'. split; [exact Hrest |].
    split; [congruence |]. split; [congruence |]. split; [exact Hpool' |].
    rewrite Hcount', Hcount, Hpool. cbn [List.filter fst negb].
    rewrite andb_true_r. destruct (converted frame); cbn [length]; lia.
Qed.

(** Whatever frames the video consumer of a new processor has seen, the
    stored result is the starting one or the grading of one of these frames,
    with the key points the estimator found in it; so it is the starting
    result or one whose explanation is that of its own grades. *)
Theorem stored_result_is_starting_or_graded
    (conf_threshold : Q) (frames : list (Result Frame * bool)) :
  let self' := snd (consume pose_model rgb2gray frames (__init__ conf_threshold)) in
  (get_latest_analysis self' = starting
   \/ exists frame_array timed_out keypoints,
        In (Ok frame_array, timed_out) frames
        /\ pose_model frame_array = Ok (Some keypoints)
        /\ get_latest_analysis self'
           = graded conf_threshold rgb2gray keypoints frame_array)
  /\ (get_latest_analysis self' = starting \/ consistent (get_latest_analysis self')).
Proof.
  assert (Hgen : forall frames self,
             let self' := snd (consume pose_model rgb2gray frames self) in
             Engine.conf_threshold self' = Engine.conf_threshold self
             /\ (_last_analysis self' = _last_analysis self
                 \/ exists frame_array timed_out keypoints,
                      In (Ok frame_array, timed_out) frames
                      /\ pose_model frame_array = Ok (Some keypoints)
                      /\ _last_analysis self'
                         = graded (Engine.conf_threshold self) rgb2gray
                             keypoints frame_array)).
  { clear frames. induction frames as [| [frame timed_out] frames IH]; intros self.
    - cbn. auto.
    - cbn [consume]. unfold bind.
      destruct (_analyze_frame_run frame timed_out self)
        as (self1 & Hrun & Hconf & _ & _ & _ & Hwhat).
      rewrite Hrun. destruct (IH self1) as [Hconf' Hrest]. cbv zeta.
      split; [congruence |].
      destruct Hrest as [Hsame | (fa & t & kps & Hin & Hpose & Hlast)].
      + rewrite Hsame.
        destruct Hwhat as [Hkeep | (fa & kps & -> & Hpose & Hlast)];
          [left; exact Hkeep |].
        right. exists fa, timed_out, kps. split; [left; reflexivity | auto].
      + right. exists fa, t, kps. split; [right; exact Hin |].
        split; [exact Hpose |]. now rewrite Hlast, Hconf. }
  intros self'.
  destruct (Hgen frames (__init__ conf_threshold)) as [_ Hwhat].
  fold self' in Hwhat. unfold get_latest_analysis.
  assert (Hfirst : _last_analysis self' = starting
                   \/ exists frame_array timed_out keypoints,
                        In (Ok frame_array, timed_out) frames
                        /\ pose_model frame_array = Ok (Some keypoints)
                        /\ _last_analysis self'
                           = graded conf_threshold rgb2gray keypoints frame_array).
  { destruct Hwhat as [H | H]; [left; exact H | right; exact H]. }
  split; [exact Hfirst |].
  destruct Hfirst as [H | (fa & t & kps & _ & _ & H)]; [left; exact H |].
  right. rewrite H. apply graded_consistent.
Qed.

End AnalysisFacts.

(** ** The registry of clients *)

Section RegistryFacts.

Import Engine Server.

(** Registering and unregistering never raise and touch nothing but the
    set of clients.  A client is registered after [register_client] and not
    after [unregister_client]; both are idempotent; unregistering a client
    that is not registered changes nothing; and unregistering a client just
    registered, that was not there before, restores the server as it was. *)
Theorem register_unregister (websocket : Client) (self : SpeechCoachWebSocketServer) :
  let registered := snd (register_client websocket self) in
  let unregistered := snd (unregister_client websocket self) in
  fst (register_client websocket self) = Ok tt
  /\ fst (unregister_client websocket self) = Ok tt
  /\ processor registered = processor self
  /\ delivered registered = delivered self
  /\ processor unregistered = processor self
  /\ delivered unregistered = delivered self
  /\ websocket ∈ clients registered
  /\ (websocket ∉ clients unregistered)
  /\ snd (register_client websocket registered) = registered
  /\ snd (unregister_client websocket unregistered) = unregistered
  /\ (websocket ∉ clients self -> unregistered = self)
  /\ (websocket ∉ clients self -> snd (unregister_client websocket registered) = self)
  /\ (websocket ∉ clients self -> size (clients registered) = S (size (clients self)))
  /\ (forall other, other <> websocket ->
        (other ∈ clients registered <-> other ∈ clients self)
        /\ (other ∈ clients unregistered <-> other ∈ clients self)).
Proof.
  intros registered unregistered.
  subst registered unregistered. unfold register_client, unregister_client.
  cbn [fst snd clients processor delivered].
  do 6 (split; [reflexivity |]).
  split; [apply elem_of_union_l, elem_of_singleton; reflexivity |].
  split; [rewrite elem_of_difference, elem_of_singleton; tauto |].
  split.
  { f_equal. apply set_eq. intros c.
    rewrite !elem_of_union, elem_of_singleton. tauto. }
  split.
  { f_equal. apply set_eq. intros c.
    rewrite !elem_of_difference, elem_of_singleton. tauto. }
  split.
  { intros Hfresh. destruct self as [cs p d]. cbn [clients processor delivered] in *.
    f_equal. apply set_eq. intros c.
    rewrite elem_of_difference, elem_of_singleton.
    split; [tauto |]. intros Hc. split; [exact Hc |]. intros ->. contradiction. }
  split.
  { intros Hfresh. destruct self as [cs p d]. cbn [clients processor delivered] in *.
    f_equal. apply set_eq. intros c.
    rewrite elem_of_difference, elem_of_union, !elem_of_singleton.
    split; [tauto |]. intros Hc. split; [right; exact Hc |]. intros ->. contradiction. }
  split.
  { intros Hfresh. rewrite size_union by (apply disjoint_singleton_l; exact Hfresh).
    now rewrite size_singleton. }
  intros other Hne.
  rewrite elem_of_union, elem_of_difference, !elem_of_singleton. tauto.
Qed.

End RegistryFacts.

(** ** Broadcasts and frames *)

Section BroadcastFacts.

Import Engine Server Results.

Variable send : Client -> Message -> Result unit.

(** A broadcast never raises, however many sends fail.  Each client whose
    send goes through receives the message once; the clients left in the
    registry are exactly these; nobody is added; the processor is not
    touched; and when every send goes through the registry is as it was. *)
Theorem broadcast_prunes_whoever_fails (analysis : AnalysisResult)
    (self : SpeechCoachWebSocketServer) :
  let message := {| msg_type := "analysis"; msg_data := analysis |} in
  exists self' sent,
    broadcast_analysis send analysis self = (Ok tt, self')
    /\ processor self' = processor self
    /\ delivered self' = delivered self ++ sent
    /\ (sent ≡ₚ map (fun c => (c, message)) (elements (clients self')))
    /\ length sent = size (clients self')
    /\ clients self' ⊆ clients self
    /\ (forall c, c ∈ clients self'
                  <-> c ∈ clients self /\ accepts send message c = true)
    /\ ((forall c, c ∈ clients self -> accepts send message c = true) ->
        clients self' = clients self).
Proof.
  intros message.
  destruct (broadcast_analysis_spec send analysis self)
    as (self' & Hrun & Hproc & Hclients & Hsent).
  fold message in Hclients, Hsent.
  assert (Hperm : List.filter (accepts send message) (elements (clients self))
                  ≡ₚ elements (clients self')).
  { apply NoDup_Permutation.
    - apply NoDup_ListNoDup, List.NoDup_filter, NoDup_ListNoDup, NoDup_elements.
    - apply NoDup_elements.
    - intros c.
      rewrite list_elem_of_In, List.filter_In, <- list_elem_of_In, !elem_of_elements.
      symmetry. apply Hclients. }
  exists self',
    (map (fun c => (c, message))
       (List.filter (accepts send message) (elements (clients self)))).
  split; [exact Hrun |]. split; [exact Hproc |]. split; [exact Hsent |].
  split; [now apply Permutation_map |].
  split; [rewrite length_map, (Permutation_length Hperm); reflexivity |].
  split; [intros c Hc; now apply Hclients in Hc |].
  split; [exact Hclients |].
  intros Hall. apply set_eq. intros c. rewrite Hclients.
  split; [tauto |]. intros Hc. split; [exact Hc | now apply Hall].
Qed.

(** Exchanging red and blue raises on an empty picture and on no other; it
    keeps the size of the picture; and doing it twice gives the picture
    back. *)
Theorem RGB2BGR_round_trip (frame_array : Frame) :
  (pixels frame_array = [] -> exists e, cvtColor_RGB2BGR frame_array = Raise e)
  /\ (pixels frame_array <> [] ->
      exists bgr,
        cvtColor_RGB2BGR frame_array = Ok bgr
        /\ height bgr = height frame_array
        /\ width bgr = width frame_array
        /\ pixels bgr = map Picture.swap_red_blue (pixels frame_array)
        /\ length (pixels bgr) = length (pixels frame_array)
        /\ cvtColor_RGB2BGR bgr = Ok frame_array).
Proof.
  unfold cvtColor_RGB2BGR. split.
  - intros ->. eexists. reflexivity.
  - intros Hne. destruct frame_array as [h w px]. cbn [pixels height width] in *.
    destruct px as [| p px]; [contradiction |].
    eexists. split; [reflexivity |]. cbn [pixels height width].
    split; [reflexivity |]. split; [reflexivity |]. split; [reflexivity |].
    split; [now rewrite length_map |].
    destruct p as [[r g] b]. cbn [map]. f_equal. f_equal. f_equal.
    rewrite List.map_map. rewrite <- (List.map_id px) at 2.
    apply List.map_ext. intros [[r' g'] b']. reflexivity.
Qed.

Variable b64decode : string -> Result (list Byte.byte).
Variable Image : Type.
Variable Image_open : list Byte.byte -> Result Image.
Variable np_array : Image -> Frame.
Variable pose_model : Frame -> Result (option (list Keypoint)).
Variable rgb2gray : Byte.byte * Byte.byte * Byte.byte -> Byte.byte.

Lemma server_eta (self : SpeechCoachWebSocketServer) :
  {| clients := clients self; processor := processor self; delivered := delivered self |}
  = self.
Proof. now destruct self. Qed.

Lemma try_except_broadcast (analysis : AnalysisResult)
    (handler : Exn -> M SpeechCoachWebSocketServer unit)
    (self : SpeechCoachWebSocketServer) :
  try_except (broadcast_analysis send analysis) handler self
  = broadcast_analysis send analysis self.
Proof.
  unfold try_except.
  destruct (broadcast_analysis_spec send analysis self) as (self' & Hrun & _).
  now rewrite Hrun.
Qed.

(** What one call of [process_frame] does: the processor counts the work
    it was given, if any, and then there is exactly one broadcast. *)
Lemma process_frame_run (frame_data : string) (timed_out : bool)
    (self : SpeechCoachWebSocketServer) :
  exists analysis p',
    process_frame send b64decode Image Image_open np_array pose_model rgb2gray
      frame_data timed_out self
    = broadcast_analysis send analysis
        {| clients := clients self; processor := p'; delivered := delivered self |}
    /\ conf_threshold p' = conf_threshold (processor self)
    /\ _shutdown p' = _shutdown (processor self)
    /\ get_latest_analysis p' = get_latest_analysis (processor self)
    /\ pool_shutdown (executor p') = pool_shutdown (executor (processor self))
    /\ (submitted (executor p') = submitted (executor (processor self))
        \/ submitted (executor p') = S (submitted (executor (processor self)))).
Proof.
  assert (Herr : forall e,
             exists analysis,
               (match e with
                | BinasciiError _ =>
                    broadcast_analysis send
                      {| eye_contact := C; framing := C; posture := C; lighting := C;
                         explanation := "Error processing frame - invalid image data" |}
                | _ =>
                    broadcast_analysis send
                      {| eye_contact := C; framing := C; posture := C; lighting := C;
                         explanation := "Error processing frame: " ++ str e |}
                end) self
               = broadcast_analysis send analysis
                   {| clients := clients self; processor := processor self;
                      delivered := delivered self |}).
  { intros e. rewrite server_eta. destruct e; eexists; reflexivity. }
  destruct (b64decode frame_data) as [image_data | e] eqn:Hb64.
  2: { destruct (Herr e) as (analysis & Hrun).
       exists analysis, (processor self).
       split; [| repeat split; auto].
       rewrite <- Hrun. unfold process_frame, try_except, bind at 1, call at 1. now rewrite Hb64. }
  destruct (Image_open image_data) as [image | e] eqn:Himg.
  2: { destruct (Herr e) as (analysis & Hrun).
       exists analysis, (processor self).
       split; [| repeat split; auto].
       rewrite <- Hrun. unfold process_frame, try_except, bind at 1, call at 1. rewrite Hb64.
       unfold bind at 1, call at 1. now rewrite Himg. }
  destruct (cvtColor_RGB2BGR (np_array image)) as [bgr | e] eqn:Hbgr.
  2: { destruct (Herr e) as (analysis & Hrun).
       exists analysis, (processor self).
       split; [| repeat split; auto].
       rewrite <- Hrun. unfold process_frame, try_except, bind at 1, call at 1. rewrite Hb64.
       unfold bind at 1, call at 1. rewrite Himg.
       unfold bind at 1, call at 1. now rewrite Hbgr. }
  destruct (_analyze_frame_async_run pose_model rgb2gray bgr timed_out (processor self))
    as (analysis & p' & Hrun & Hconf & Hshut & Hlast & Hpool & Hcount & _).
  exists analysis, p'.
  split.
  - rewrite <- (try_except_broadcast analysis
                  (fun e =>
                     match e with
                     | BinasciiError _ =>
                         broadcast_analysis send
                           {| eye_contact := C; framing := C; posture := C;
                              lighting := C;
                              explanation :=
                                "Error processing frame - invalid image data" |}
                     | _ =>
                         broadcast_analysis send
                           {| eye_contact := C; framing := C; posture := C;
                              lighting := C;
                              explanation := "Error processing frame: " ++ str e |}
                     end)).
    unfold process_frame, try_except, bind at 1, call at 1. rewrite Hb64.
    unfold bind at 1, call at 1. rewrite Himg.
    unfold bind at 1, call at 1. rewrite Hbgr.
    unfold bind at 1, on_processor. rewrite Hrun. reflexivity.
  - split; [exact Hconf |]. split; [exact Hshut |]. split; [exact Hlast |].
    split; [exact Hpool |].
    rewrite Hcount. destruct (pool_shutdown (executor (processor self))); auto.
Qed.

(** Whatever the payload of a frame message, [process_frame] returns
    normally after exactly one broadcast: some result is sent once to every
    client whose send goes through, and these clients are the ones left in
    the registry.  It never stores a result in the processor, whose
    threshold and flags it leaves alone too. *)
Theorem every_frame_message_gets_one_broadcast
    (frame_data : string) (timed_out : bool) (self : SpeechCoachWebSocketServer) :
  exists analysis self',
    let message := {| msg_type := "analysis"; msg_data := analysis |} in
    process_frame send b64decode Image Image_open np_array pose_model rgb2gray
      frame_data timed_out self
    = (Ok tt, self')
    /\ delivered self'
       = delivered self
         ++ map (fun c => (c, message))
              (List.filter (accepts send message) (elements (clients self)))
    /\ (forall c, c ∈ clients self'
                  <-> c ∈ clients self /\ accepts send message c = true)
    /\ get_latest_analysis (processor self') = get_latest_analysis (processor self)
    /\ conf_threshold (processor self') = conf_threshold (processor self)
    /\ _shutdown (processor self') = _shutdown (processor self)
    /\ pool_shutdown (executor (processor self'))
       = pool_shutdown (executor (processor self)).
Proof.
  destruct (process_frame_run frame_data timed_out self)
    as (analysis & p' & Hrun & Hconf & Hshut & Hlast & Hpool & _).
  destruct (broadcast_analysis_spec send analysis
              {| clients := clients self; processor := p'; delivered := delivered self |})
    as (self' & Hb & Hproc & Hclients & Hsent).
  cbn [clients processor delivered] in Hproc, Hclients, Hsent.
  exists analysis, self'. cbv zeta.
  split; [now rewrite Hrun |]. split; [exact Hsent |]. split; [exact Hclients |].
  rewrite Hproc. auto.
Qed.

Lemma lighting_of_swapped (frame_array bgr : Frame) :
  cvtColor_RGB2BGR frame_array = Ok bgr ->
  Classifier._analyze_lighting rgb2gray bgr
  = Classifier._analyze_lighting
      (fun p => rgb2gray (Picture.swap_red_blue p)) frame_array.
Proof.
  unfold cvtColor_RGB2BGR.
  destruct (pixels frame_array) as [| p px] eqn:Hpx; [discriminate |].
  intros [= <-].
  unfold Classifier._analyze_lighting, Classifier.cvtColor_RGB2GRAY.
  cbn [pixels]. rewrite Hpx. cbn [map].
  destruct p as [[r g] b]. cbn [Picture.swap_red_blue].
  rewrite !List.map_map.
  rewrite (List.map_ext (fun x => rgb2gray (let '(r0, g0, b0) := x in (b0, g0, r0)))
             (fun x => rgb2gray (Picture.swap_red_blue x)))
    by (intros [[r' g'] b']; reflexivity).
  reflexivity.
Qed.

(** A payload that decodes to a picture, on an open pool, with the worker in
    time and somebody in the picture, is answered with the grading of the
    key points found, and the pool has one more piece of work.  The picture
    that is graded is the decoded one with red and blue exchanged: its
    lighting grade is the one of the decoded picture under a grey conversion
    that takes blue for red and red for blue. *)
Theorem decodable_frame_is_graded
    (frame_data : string) (image_data : list Byte.byte) (image : Image) (bgr : Frame)
    (keypoints : list Keypoint) (self : SpeechCoachWebSocketServer) :
  b64decode frame_data = Ok image_data ->
  Image_open image_data = Ok image ->
  cvtColor_RGB2BGR (np_array image) = Ok bgr ->
  pool_shutdown (executor (processor self)) = false ->
  _shutdown (processor self) = false ->
  pose_model bgr = Ok (Some keypoints) ->
  let fresh := graded (conf_threshold (processor self)) rgb2gray keypoints bgr in
  process_frame send b64decode Image Image_open np_array pose_model rgb2gray
    frame_data false self
  = broadcast_analysis send fresh
      {| clients := clients self;
         processor :=
           {| conf_threshold := conf_threshold (processor self);
              executor := {| pool_shutdown := false;
                             submitted := S (submitted (executor (processor self))) |};
              _shutdown := _shutdown (processor self);
              _last_analysis := _last_analysis (processor self) |};
         delivered := delivered self |}
  /\ lighting fresh
     = Classifier._analyze_lighting
         (fun p => rgb2gray (Picture.swap_red_blue p)) (np_array image)
  /\ width bgr = width (np_array image)
  /\ height bgr = height (np_array image).
Proof.
  intros Hb64 Himg Hbgr Hpool Hrunning Hpose fresh.
  split; [| split].
  - pose proof (completed_analysis_run pose_model rgb2gray bgr keypoints
                  (processor self) Hpool Hrunning Hpose) as Hasync.
    rewrite <- (try_except_broadcast fresh
                  (fun e =>
                     match e with
                     | BinasciiError _ =>
                         broadcast_analysis send
                           {| eye_contact := C; framing := C; posture := C;
                              lighting := C;
                              explanation :=
                                "Error processing frame - invalid image data" |}
                     | _ =>
                         broadcast_analysis send
                           {| eye_contact := C; framing := C; posture := C;
                              lighting := C;
                              explanation := "Error processing frame: " ++ str e |}
                     end)).
    unfold process_frame, try_except, bind at 1, call at 1. rewrite Hb64.
    unfold bind at 1, call at 1. rewrite Himg.
    unfold bind at 1, call at 1. rewrite Hbgr.
    unfold bind at 1, on_processor. rewrite Hasync. reflexivity.
  - subst fresh. unfold graded. cbn [lighting Spec.grade_of].
    now apply lighting_of_swapped.
  - unfold cvtColor_RGB2BGR in Hbgr.
    destruct (pixels (np_array image)); [discriminate |].
    injection Hbgr as <-. split; reflexivity.
Qed.

Lemma _analyze_frame_async_undecided
    (frame_array : Frame) (timed_out : bool) (self : SpeechCoachProcessor) :
  timed_out = true
  \/ pose_model frame_array = Ok None
  \/ (exists e, pose_model frame_array = Raise e)
  \/ _shutdown self = true ->
  _analyze_frame_async pose_model rgb2gray frame_array timed_out self
  = (Ok (get_latest_analysis self),
     if pool_shutdown (executor self) then self
     else {| conf_threshold := conf_threshold self;
             executor := {| pool_shutdown := false;
                            submitted := S (submitted (executor self)) |};
             _shutdown := _shutdown self;
             _last_analysis := _last_analysis self |}).
Proof.
  intros H.
  unfold _analyze_frame_async, try_except, bind, submit, raise, get, ret,
    get_latest_analysis.
  destruct (pool_shutdown (executor self)); [reflexivity |].
  destruct timed_out; [reflexivity |].
  rewrite _analyze_frame_sync_fallback; [reflexivity |].
  cbn [_shutdown].
  destruct H as [H | [H | [H | H]]]; [discriminate H | | |]; auto.
Qed.

(** A payload that decodes to a picture in which nothing is decided (the
    worker is late, the estimator finds nobody or raises, or the processor
    was closed) is answered with the stored result, sent again to every
    client.  Unless the pool is shut the work was handed to it all the
    same: a late worker stays counted. *)
Theorem undecided_frame_republishes_stored_result
    (frame_data : string) (image_data : list Byte.byte) (image : Image) (bgr : Frame)
    (timed_out : bool) (self : SpeechCoachWebSocketServer) :
  b64decode frame_data = Ok image_data ->
  Image_open image_data = Ok image ->
  cvtColor_RGB2BGR (np_array image) = Ok bgr ->
  timed_out = true
  \/ pose_model bgr = Ok None
  \/ (exists e, pose_model bgr = Raise e)
  \/ _shutdown (processor self) = true ->
  exists p',
    process_frame send b64decode Image Image_open np_array pose_model rgb2gray
      frame_data timed_out self
    = broadcast_analysis send (get_latest_analysis (processor self))
        {| clients := clients self; processor := p'; delivered := delivered self |}
    /\ get_latest_analysis p' = get_latest_analysis (processor self)
    /\ submitted (executor p')
       = (if pool_shutdown (executor (processor self))
          then submitted (executor (processor self))
          else S (submitted (executor (processor self)))).
Proof.
  intros Hb64 Himg Hbgr H.
  pose proof (_analyze_frame_async_undecided bgr timed_out (processor self) H) as Hasync.
  eexists. split.
  - rewrite <- (try_except_broadcast (get_latest_analysis (processor self))
                  (fun e =>
                     match e with
                     | BinasciiError _ =>
                         broadcast_analysis send
                           {| eye_contact := C; framing := C; posture := C;
                              lighting := C;
                              explanation :=
                                "Error processing frame - invalid image data" |}
                     | _ =>
                         broadcast_analysis send
                           {| eye_contact := C; framing := C; posture := C;
                              lighting := C;
                              explanation := "Error processing frame: " ++ str e |}
                     end)).
    unfold process_frame, try_except, bind at 1, call at 1. rewrite Hb64.
    unfold bind at 1, call at 1. rewrite Himg.
    unfold bind at 1, call at 1. rewrite Hbgr.
    unfold bind at 1, on_processor. rewrite Hasync. reflexivity.
  - destruct (pool_shutdown (executor (processor self))); split; reflexivity.
Qed.

(** [process_frame] on a server whose pool is shut: the processor is left
    as it is and what is sent is the stored result or an error result. *)
Lemma process_frame_closed (frame_data : string) (timed_out : bool)
    (self : SpeechCoachWebSocketServer) :
  pool_shutdown (executor (processor self)) = true ->
  exists analysis,
    process_frame send b64decode Image Image_open np_array pose_model rgb2gray
      frame_data timed_out self
    = broadcast_analysis send analysis self
    /\ (analysis = get_latest_analysis (processor self)
        \/ (eye_contact analysis = C /\ framing analysis = C
            /\ posture analysis = C /\ lighting analysis = C
            /\ exists rest,
                 explanation analysis = ("Error processing frame" ++ rest)%string)).
Proof.
  intros Hpool.
  assert (Herr : forall e,
             exists analysis,
               (match e with
                | BinasciiError _ =>
                    broadcast_analysis send
                      {| eye_contact := C; framing := C; posture := C; lighting := C;
                         explanation := "Error processing frame - invalid image data" |}
                | _ =>
                    broadcast_analysis send
                      {| eye_contact := C; framing := C; posture := C; lighting := C;
                         explanation := ("Error processing frame: " ++ str e)%string |}
                end) self
               = broadcast_analysis send analysis self
               /\ (eye_contact analysis = C /\ framing analysis = C
                   /\ posture analysis = C /\ lighting analysis = C
                   /\ exists rest,
                        explanation analysis = ("Error processing frame" ++ rest)%string)).
  { intros e.
    destruct e; eexists; (split; [reflexivity |]);
      cbn [eye_contact framing posture lighting explanation];
      repeat (split; [reflexivity |]);
      first [ now exists " - invalid image data"%string | eexists; reflexivity ]. }
  destruct (b64decode frame_data) as [image_data | e] eqn:Hb64.
  2: { destruct (Herr e) as (analysis & Hrun & Hshape).
       exists analysis. split; [| right; exact Hshape].
       rewrite <- Hrun. unfold process_frame, try_except, bind at 1, call at 1.
       now rewrite Hb64. }
  destruct (Image_open image_data) as [image | e] eqn:Himg.
  2: { destruct (Herr e) as (analysis & Hrun & Hshape).
       exists analysis. split; [| right; exact Hshape].
       rewrite <- Hrun. unfold process_frame, try_except, bind at 1, call at 1.
       rewrite Hb64. unfold bind at 1, call at 1. now rewrite Himg. }
  destruct (cvtColor_RGB2BGR (np_array image)) as [bgr | e] eqn:Hbgr.
  2: { destruct (Herr e) as (analysis & Hrun & Hshape).
       exists analysis. split; [| right; exact Hshape].
       rewrite <- Hrun. unfold process_frame, try_except, bind at 1, call at 1.
       rewrite Hb64. unfold bind at 1, call at 1. rewrite Himg.
       unfold bind at 1, call at 1. now rewrite Hbgr. }
  exists (get_latest_analysis (processor self)). split; [| left; reflexivity].
  rewrite <- (try_except_broadcast (get_latest_analysis (processor self))
                (fun e =>
                   match e with
                   | BinasciiError _ =>
                       broadcast_analysis send
                         {| eye_contact := C; framing := C; posture := C;
                            lighting := C;
                            explanation :=
                              "Error processing frame - invalid image data" |}
                   | _ =>
                       broadcast_analysis send
                         {| eye_contact := C; framing := C; posture := C;
                            lighting := C;
                            explanation := ("Error processing frame: " ++ str e)%string |}
                   end)).
  unfold process_frame, try_except, bind at 1, call at 1. rewrite Hb64.
  unfold bind at 1, call at 1. rewrite Himg.
  unfold bind at 1, call at 1. rewrite Hbgr.
  unfold bind at 1, on_processor.
  rewrite (_analyze_frame_async_closed pose_model rgb2gray bgr timed_out
             (processor self) Hpool).
  rewrite server_eta. reflexivity.
Qed.

End BroadcastFacts.

(** ** Messages and connections *)

Section ConnectionFacts.

Import Engine Server Connection.

Variable send : Client -> Message -> Result unit.
Variable send_reply : Client -> Reply -> Result unit.
Variable json_loads : string -> Result Document.
Variable b64decode : string -> Result (list Byte.byte).
Variable Image : Type.
Variable Image_open : list Byte.byte -> Result Image.
Variable np_array : Image -> Frame.
Variable pose_model : Frame -> Result (option (list Keypoint)).
Variable rgb2gray : Byte.byte * Byte.byte * Byte.byte -> Byte.byte.

Lemma session_eta (self : Session) :
  {| server := server self; running := running self; replied := replied self |} = self.
Proof. now destruct self. Qed.

(** What [process_frame], given the value of the frame key, leaves of the
    server. *)
Lemma process_frame_value_run (frame_data : Json) (timed_out : bool)
    (self : SpeechCoachWebSocketServer) :
  exists self',
    process_frame_value send b64decode Image Image_open np_array pose_model
      rgb2gray frame_data timed_out self = (Ok tt, self')
    /\ clients self' ⊆ clients self
    /\ get_latest_analysis (processor self') = get_latest_analysis (processor self)
    /\ conf_threshold (processor self') = conf_threshold (processor self)
    /\ _shutdown (processor self') = _shutdown (processor self)
    /\ pool_shutdown (executor (processor self'))
       = pool_shutdown (executor (processor self)).
Proof.
  assert (H : forall decode frame_data,
             exists self',
               process_frame send decode Image Image_open np_array pose_model rgb2gray
                 frame_data timed_out self
               = (Ok tt, self')
               /\ clients self' ⊆ clients self
               /\ get_latest_analysis (processor self')
                  = get_latest_analysis (processor self)
               /\ conf_threshold (processor self') = conf_threshold (processor self)
               /\ _shutdown (processor self') = _shutdown (processor self)
               /\ pool_shutdown (executor (processor self'))
                  = pool_shutdown (executor (processor self))).
  { intros decode s.
    destruct (process_frame_run send decode Image Image_open np_array pose_model
                rgb2gray s timed_out self)
      as (analysis & p' & Hrun & Hconf & Hshut & Hlast & Hpool & _).
    destruct (broadcast_analysis_spec send analysis
                {| clients := clients self; processor := p';
                   delivered := delivered self |})
      as (self' & Hb & Hproc & Hclients & _).
    cbn [clients processor delivered] in Hproc, Hclients.
    exists self'. split; [now rewrite Hrun |].
    split; [intros c Hc; now apply Hclients in Hc |].
    rewrite Hproc. auto. }
  destruct frame_data; apply H.
Qed.

Lemma handle_message_run (websocket : Client) (message : string) (timed_out : bool)
    (self : Session) :
  exists self',
    handle_message send send_reply json_loads b64decode Image Image_open
      np_array pose_model rgb2gray websocket message timed_out self = (Ok tt, self')
    /\ running self' = running self
    /\ clients (server self') ⊆ clients (server self)
    /\ get_latest_analysis (processor (server self'))
       = get_latest_analysis (processor (server self))
    /\ conf_threshold (processor (server self'))
       = conf_threshold (processor (server self))
    /\ _shutdown (processor (server self')) = _shutdown (processor (server self))
    /\ pool_shutdown (executor (processor (server self')))
       = pool_shutdown (executor (processor (server self)))
    /\ (replied self' = replied self
        \/ replied self' = replied self ++ [(websocket, {| reply_type := "pong" |})]).
Proof.
  assert (Hsame : exists self',
             (Ok tt, self) = (Ok tt, self')
             /\ running self' = running self
             /\ clients (server self') ⊆ clients (server self)
             /\ get_latest_analysis (processor (server self'))
                = get_latest_analysis (processor (server self))
             /\ conf_threshold (processor (server self'))
                = conf_threshold (processor (server self))
             /\ _shutdown (processor (server self')) = _shutdown (processor (server self))
             /\ pool_shutdown (executor (processor (server self')))
                = pool_shutdown (executor (processor (server self)))
             /\ (replied self' = replied self
                 \/ replied self'
                    = replied self ++ [(websocket, {| reply_type := "pong" |})])).
  { exists self. repeat split; auto. }
  unfold handle_message, try_except, bind at 1, call at 1.
  destruct (json_loads message) as [[items |] | e]; [| exact Hsame | exact Hsame].
  unfold bind at 1, call at 1, data_get at 1.
  destruct (items "type"%string) as [| t |]; [exact Hsame | | exact Hsame].
  destruct (String.eqb t "frame").
  - unfold bind at 1, call at 1, data_get, on_server.
    destruct (process_frame_value_run (items "frame"%string) timed_out (server self))
      as (srv' & Hrun & Hclients & Hlast & Hconf & Hshut & Hpool).
    rewrite Hrun. eexists. split; [reflexivity |].
    cbn [server running replied]. auto 10.
  - destruct (String.eqb t "ping"); [| exact Hsame].
    unfold send_message, try_except, websocket_send.
    destruct (send_reply websocket {| reply_type := "pong" |}) as [[] | e].
    + eexists. split; [reflexivity |]. cbn [server running replied]. auto 10.
    + destruct e; try exact Hsame.
      unfold on_server, unregister_client.
      eexists. split; [reflexivity |]. cbn [server running replied clients processor].
      split; [reflexivity |]. split; [apply subseteq_difference_l; reflexivity |].
      auto 10.
Qed.

(** Handling a message never raises: whatever the text, the decoders, the
    estimator and the sends do, [handle_message] returns normally.  It never
    adds a client, never stores a result, never touches the threshold, the
    flags or [running], and the only reply it may send is one pong to the
    sender. *)
Theorem handle_message_never_raises (websocket : Client) (message : string)
    (timed_out : bool) (self : Session) :
  exists self',
    handle_message send send_reply json_loads b64decode Image Image_open
      np_array pose_model rgb2gray websocket message timed_out self = (Ok tt, self')
    /\ running self' = running self
    /\ clients (server self') ⊆ clients (server self)
    /\ get_latest_analysis (processor (server self'))
       = get_latest_analysis (processor (server self))
    /\ conf_threshold (processor (server self'))
       = conf_threshold (processor (server self))
    /\ _shutdown (processor (server self')) = _shutdown (processor (server self))
    /\ pool_shutdown (executor (processor (server self')))
       = pool_shutdown (executor (processor (server self)))
    /\ (replied self' = replied self
        \/ replied self' = replied self ++ [(websocket, {| reply_type := "pong" |})]).
Proof. exact (handle_message_run websocket message timed_out self). Qed.

(** A message that is not JSON, or is JSON but no object, or an object whose
    type is neither frame nor ping (a missing type too), is dropped: nothing
    is sent, nothing changes, nobody is disconnected. *)
Theorem unreadable_message_is_ignored (websocket : Client) (message : string)
    (timed_out : bool) (self : Session) :
  (exists e, json_loads message = Raise e)
  \/ json_loads message = Ok NotDict
  \/ (exists items,
        json_loads message = Ok (Dict items)
        /\ items "type"%string <> JString "frame"
        /\ items "type"%string <> JString "ping") ->
  handle_message send send_reply json_loads b64decode Image Image_open
      np_array pose_model rgb2gray websocket message timed_out self = (Ok tt, self).
Proof.
  unfold handle_message, try_except, bind at 1, call at 1.
  intros [[e H] | [H | (items & H & Hframe & Hping)]]; rewrite H; [reflexivity .. |].
  unfold bind at 1, call at 1, data_get at 1.
  destruct (items "type"%string) as [| t |]; [reflexivity | | reflexivity].
  destruct (String.eqb_spec t "frame") as [-> | _]; [contradiction |].
  destruct (String.eqb_spec t "ping") as [-> | _]; [contradiction |].
  reflexivity.
Qed.

(** A ping is answered with one pong, to the sender only; no analysis is
    started and no other client hears of it.  When the sender has gone
    ([ConnectionClosed]) it is unregistered; when the send fails in another
    way it stays registered and the failure is dropped. *)
Theorem ping_is_answered_to_sender (websocket : Client) (message : string)
    (items : string -> Json) (timed_out : bool) (self : Session) :
  json_loads message = Ok (Dict items) ->
  items "type"%string = JString "ping" ->
  let pong := {| reply_type := "pong" |} in
  handle_message send send_reply json_loads b64decode Image Image_open
      np_array pose_model rgb2gray websocket message timed_out self
  = match send_reply websocket pong with
    | Ok _ =>
        (Ok tt, {| server := server self;
                   running := running self;
                   replied := replied self ++ [(websocket, pong)] |})
    | Raise ConnectionClosed =>
        (Ok tt, {| server := {| clients := clients (server self) ∖ {[websocket]};
                                processor := processor (server self);
                                delivered := delivered (server self) |};
                   running := running self;
                   replied := replied self |})
    | Raise _ => (Ok tt, self)
    end.
Proof.
  intros Hjson Htype pong.
  unfold handle_message, try_except, bind at 1, call at 1. rewrite Hjson.
  unfold bind at 1, call at 1, data_get at 1. rewrite Htype.
  change (String.eqb "ping" "frame") with false.
  change (String.eqb "ping" "ping") with true. cbv iota.
  unfold send_message, try_except, websocket_send. fold pong.
  destruct (send_reply websocket pong) as [[] | e]; [reflexivity |].
  destruct e; reflexivity.
Qed.


Lemma messages_loop (websocket : Client) (messages : list (string * bool))
    (self : Session) :
  exists self' n,
    for_in messages
      (fun message (_ : unit) => handle_message send send_reply json_loads b64decode Image Image_open
      np_array pose_model rgb2gray websocket (fst message) (snd message))
      tt self
    = (Ok tt, self')
    /\ running self' = running self
    /\ clients (server self') ⊆ clients (server self)
    /\ get_latest_analysis (processor (server self'))
       = get_latest_analysis (processor (server self))
    /\ conf_threshold (processor (server self'))
       = conf_threshold (processor (server self))
    /\ _shutdown (processor (server self')) = _shutdown (processor (server self))
    /\ pool_shutdown (executor (processor (server self')))
       = pool_shutdown (executor (processor (server self)))
    /\ (n <= length messages)%nat
    /\ replied self'
       = replied self ++ repeat (websocket, {| reply_type := "pong" |}) n.
Proof.
  revert self.
  induction messages as [| message messages IH]; intros self.
  - exists self, 0%nat. cbn [for_in repeat length]. rewrite app_nil_r.
    repeat split; auto.
  - cbn [for_in length]. unfold bind at 1.
    destruct (handle_message_run websocket (fst message) (snd message) self)
      as (self1 & Hrun & Hr1 & Hc1 & Hl1 & Ht1 & Hs1 & Hp1 & Hreplied).
    rewrite Hrun.
    destruct (IH self1) as (self' & n & Hloop & Hr & Hc & Hl & Ht & Hs & Hp & Hn & Hrep).
    destruct Hreplied as [Hreplied | Hreplied].
    + exists self', n. split; [exact Hloop |].
      split; [congruence |]. split; [etransitivity; eassumption |].
      split; [congruence |]. split; [congruence |]. split; [congruence |].
      split; [congruence |]. split; [lia |]. now rewrite Hrep, Hreplied.
    + exists self', (S n). split; [exact Hloop |].
      split; [congruence |]. split; [etransitivity; eassumption |].
      split; [congruence |]. split; [congruence |]. split; [congruence |].
      split; [congruence |]. split; [lia |].
      rewrite Hrep, Hreplied. cbn [repeat]. now rewrite <- app_assoc.
Qed.

(** A connection always ends in order: however the iteration over the socket
    ends (normally or with any exception), [handle_client] returns normally
    and the websocket is not registered afterwards.  No other client was
    added, the stored result, the threshold and the flags are as before, and
    all that was sent to answer this websocket is at most one pong for each
    message. *)
Theorem connection_ends_unregistered (websocket : Client) (path : string)
    (messages : list (string * bool)) (ending : Result unit) (self : Session) :
  exists self' n,
    handle_client send send_reply json_loads b64decode Image Image_open np_array
      pose_model rgb2gray websocket path messages ending self
    = (Ok tt, self')
    /\ (websocket ∉ clients (server self'))
    /\ clients (server self') ⊆ clients (server self)
    /\ running self' = running self
    /\ get_latest_analysis (processor (server self'))
       = get_latest_analysis (processor (server self))
    /\ conf_threshold (processor (server self'))
       = conf_threshold (processor (server self))
    /\ _shutdown (processor (server self')) = _shutdown (processor (server self))
    /\ pool_shutdown (executor (processor (server self')))
       = pool_shutdown (executor (processor (server self)))
    /\ (n <= length messages)%nat
    /\ replied self'
       = replied self ++ repeat (websocket, {| reply_type := "pong" |}) n.
Proof.
  unfold handle_client, bind at 1, on_server at 1, register_client.
  unfold try_finally, try_except, bind at 1.
  destruct (messages_loop websocket messages
              {| server := {| clients := {[websocket]} ∪ clients (server self);
                              processor := processor (server self);
                              delivered := delivered (server self) |};
                 running := running self;
                 replied := replied self |})
    as (self1 & n & Hloop & Hr & Hc & Hl & Ht & Hs & Hp & Hn & Hrep).
  cbn [server running replied clients processor] in Hr, Hc, Hl, Ht, Hs, Hp, Hrep.
  rewrite Hloop.
  assert (Hend : exists r,
             (let (r, s') := call ending self1 in
              match r with
              | Ok v => (Ok v, s')
              | Raise e =>
                  match e with
                  | ConnectionClosed => ret tt
                  | _ => ret tt
                  end s'
              end) = (Ok r, self1)).
  { unfold call, ret. destruct ending as [[] | e]; [| destruct e]; eexists; reflexivity. }
  destruct Hend as ([] & Hend). rewrite Hend.
  unfold on_server, unregister_client.
  eexists. exists n. split; [reflexivity |].
  cbn [server running replied clients processor].
  split; [| split; [| auto 10]].
  - intros Hin. apply elem_of_difference in Hin as [_ Hnot].
    apply Hnot. now apply elem_of_singleton.
  - intros c Hin. apply elem_of_difference in Hin as [Hin Hnot].
    apply Hc in Hin. apply elem_of_union in Hin as [Hin | Hin]; [contradiction | exact Hin].
Qed.

(** [stop] never raises and touches neither the clients nor the stored
    result.  A server that was stopped keeps answering: a frame message is
    answered with the stored result, or with an error result when its
    payload is malformed, and the processor is left exactly as [stop] left
    it, so nothing is handed to the pool. *)
Theorem stopped_server_answers_from_store (self : Session) :
  let stopped := snd (stop self) in
  fst (stop self) = Ok tt
  /\ running stopped = false
  /\ clients (server stopped) = clients (server self)
  /\ delivered (server stopped) = delivered (server self)
  /\ replied stopped = replied self
  /\ get_latest_analysis (processor (server stopped))
     = get_latest_analysis (processor (server self))
  /\ submitted (executor (processor (server stopped)))
     = submitted (executor (processor (server self)))
  /\ forall frame_data timed_out,
       exists analysis,
         process_frame_value send b64decode Image Image_open np_array pose_model
      rgb2gray frame_data timed_out (server stopped)
         = broadcast_analysis send analysis (server stopped)
         /\ (analysis = get_latest_analysis (processor (server self))
             \/ (eye_contact analysis = C /\ framing analysis = C
                 /\ posture analysis = C /\ lighting analysis = C
                 /\ exists rest,
                      explanation analysis
                      = ("Error processing frame" ++ rest)%string)).
Proof.
  intros stopped.
  repeat (split; [reflexivity |]).
  intros frame_data timed_out.
  assert (Hpool : pool_shutdown (executor (processor (server stopped))) = true)
    by reflexivity.
  change (get_latest_analysis (processor (server self)))
    with (get_latest_analysis (processor (server stopped))).
  destruct frame_data; apply process_frame_closed; exact Hpool.
Qed.

End ConnectionFacts.

(** ** The further properties at work on the sample data *)


(** At a threshold of 0.95 no key point of [upright] counts any more. *)
Lemma raising_threshold_only_demotes_witness :
  0.5 <= 0.95
  /\ (Spec.grade_of 0.95 green Spec.EyeContact upright well_lit
      = Spec.grade_of 0.5 green Spec.EyeContact upright well_lit
      \/ Spec.grade_of 0.95 green Spec.EyeContact upright well_lit = C).
Proof.
  assert (H : 0.5 <= 0.95) by (unfold Qle; simpl; lia).
  split; [exact H |].
  exact (raising_threshold_only_demotes 0.5 0.95 green Spec.EyeContact upright
           well_lit H).
Defined.

(** Eye contact reads the first three rows: the face alone gets the grade
    of the whole observation. *)
Lemma grade_reads_required_rows_witness :
  (forall m, In m (Spec.required Spec.EyeContact) ->
             upright !! Spec.row m = take 5 upright !! Spec.row m)
  /\ Spec.grade_of 0.5 green Spec.EyeContact upright well_lit
     = Spec.grade_of 0.5 green Spec.EyeContact (take 5 upright) well_lit.
Proof.
  assert (H : forall m, In m (Spec.required Spec.EyeContact) ->
                        upright !! Spec.row m = take 5 upright !! Spec.row m).
  { intros m Hm. simpl in Hm.
    destruct Hm as [<- | [<- | [<- | []]]]; reflexivity. }
  split; [exact H |].
  exact (grade_reads_required_rows 0.5 green Spec.EyeContact upright (take 5 upright)
           well_lit H).
Defined.


Lemma flat_picture_is_C_witness :
  (forall p, In p (pixels flat_grey) -> green p = Byte.x80)
  /\ Classifier._analyze_lighting green flat_grey = C.
Proof.
  assert (H : forall p, In p (pixels flat_grey) -> green p = Byte.x80).
  { intros p Hp. simpl in Hp.
    destruct Hp as [<- | [<- | [<- | [<- | []]]]]; reflexivity. }
  split; [exact H |].
  exact (flat_picture_is_C green flat_grey Byte.x80 H).
Defined.

Lemma saturated_picture_is_C_witness :
  ((forall p, In p (pixels overexposed) -> (200 <= Byte.to_N (green p))%N)
   \/ (forall p, In p (pixels overexposed) -> (Byte.to_N (green p) <= 49)%N))
  /\ Classifier._analyze_lighting green overexposed = C.
Proof.
  assert (H : (forall p, In p (pixels overexposed) -> (200 <= Byte.to_N (green p))%N)
              \/ (forall p, In p (pixels overexposed) -> (Byte.to_N (green p) <= 49)%N)).
  { left. intros p Hp. simpl in Hp.
    destruct Hp as [<- | [<- | [<- | [<- | []]]]]; simpl; lia. }
  split; [exact H |].
  exact (saturated_picture_is_C green overexposed H).
Defined.

Lemma explanation_tells_the_grades_witness :
  Classifier._generate_explanation A B C A = Classifier._generate_explanation A B C A
  /\ A = A /\ B = B /\ C = C /\ A = A.
Proof.
  assert (H : Classifier._generate_explanation A B C A
              = Classifier._generate_explanation A B C A) by reflexivity.
  split; [exact H |].
  exact (explanation_tells_the_grades A B C A A B C A H).
Defined.

(** Somebody in a well lit picture, on a new processor. *)
Lemma completed_analysis_is_stored_witness :
  Engine.pool_shutdown (Engine.executor (Engine.__init__ 0.5)) = false
  /\ Engine._shutdown (Engine.__init__ 0.5) = false
  /\ somebody well_lit = Ok (Some upright)
  /\ exists self',
       Engine._analyze_frame somebody green (Ok well_lit) false (Engine.__init__ 0.5)
       = (Ok tt, self')
       /\ Engine.get_latest_analysis self' = Results.graded 0.5 green upright well_lit
       /\ Engine.submitted (Engine.executor self') = 1%nat.
Proof.
  split; [reflexivity |]. split; [reflexivity |]. split; [reflexivity |].
  exact (proj2 (completed_analysis_is_stored somebody green well_lit upright
                  (Engine.__init__ 0.5) eq_refl eq_refl eq_refl)).
Defined.

(** Of [three_frames] two reach the pool. *)
Lemma consume_dispatches_once_per_frame_witness :
  Engine.pool_shutdown (Engine.executor (Engine.__init__ 0.5)) = false
  /\ exists self',
       Engine.consume somebody green three_frames (Engine.__init__ 0.5) = (Ok tt, self')
       /\ Engine.submitted (Engine.executor self') = 2%nat.
Proof.
  split; [reflexivity |].
  destruct (consume_dispatches_once_per_frame somebody green three_frames
              (Engine.__init__ 0.5) eq_refl)
    as (self' & Hrun & _ & _ & _ & Hcount).
  exists self'. split; [exact Hrun | exact Hcount].
Defined.

(** A picture with somebody in it, sent to three clients. *)
Lemma decodable_frame_is_graded_witness :
  any_bytes "aGVsbG8=" = Ok []
  /\ opens_well_lit [] = Ok well_lit
  /\ Server.cvtColor_RGB2BGR well_lit = Ok well_lit
  /\ Engine.pool_shutdown (Engine.executor (Server.processor three_clients)) = false
  /\ Engine._shutdown (Server.processor three_clients) = false
  /\ somebody well_lit = Ok (Some upright)
  /\ lighting (Results.graded 0.5 green upright well_lit)
     = Classifier._analyze_lighting (fun p => green (Picture.swap_red_blue p)) well_lit.
Proof.
  split; [reflexivity |]. split; [reflexivity |]. split; [reflexivity |].
  split; [reflexivity |]. split; [reflexivity |]. split; [reflexivity |].
  exact (proj1 (proj2 (decodable_frame_is_graded second_is_gone any_bytes Frame
                         opens_well_lit (fun image => image) somebody green
                         "aGVsbG8=" [] well_lit well_lit upright three_clients
                         eq_refl eq_refl eq_refl eq_refl eq_refl eq_refl))).
Defined.

(** A picture with nobody in it: the three clients are sent the starting
    result again. *)
Lemma undecided_frame_republishes_stored_result_witness :
  any_bytes "aGVsbG8=" = Ok []
  /\ opens_well_lit [] = Ok well_lit
  /\ Server.cvtColor_RGB2BGR well_lit = Ok well_lit
  /\ (false = true
      \/ nobody well_lit = Ok None
      \/ (exists e, nobody well_lit = Raise e)
      \/ Engine._shutdown (Server.processor three_clients) = true)
  /\ exists p',
       Server.process_frame second_is_gone any_bytes Frame opens_well_lit
         (fun image => image) nobody green "aGVsbG8=" false three_clients
       = Server.broadcast_analysis second_is_gone Results.starting
           {| Server.clients := Server.clients three_clients;
              Server.processor := p';
              Server.delivered := Server.delivered three_clients |}
       /\ Engine.submitted (Engine.executor p') = 1%nat.
Proof.
  assert (H : false = true
              \/ nobody well_lit = Ok None
              \/ (exists e, nobody well_lit = Raise e)
              \/ Engine._shutdown (Server.processor three_clients) = true)
    by (right; left; reflexivity).
  split; [reflexivity |]. split; [reflexivity |]. split; [reflexivity |].
  split; [exact H |].
  destruct (undecided_frame_republishes_stored_result second_is_gone any_bytes Frame
              opens_well_lit (fun image => image) nobody green
              "aGVsbG8=" [] well_lit well_lit false three_clients
              eq_refl eq_refl eq_refl H)
    as (p' & Hrun & _ & Hcount).
  exists p'. split; [exact Hrun | exact Hcount].
Defined.

(** A text that is not JSON leaves a new server as it is. *)
Lemma unreadable_message_is_ignored_witness :
  ((exists e, not_json "hello" = Raise e)
   \/ not_json "hello" = Ok Connection.NotDict
   \/ (exists items,
         not_json "hello" = Ok (Connection.Dict items)
         /\ items "type"%string <> Connection.JString "frame"
         /\ items "type"%string <> Connection.JString "ping"))
  /\ Connection.handle_message second_is_gone reply_goes_through not_json any_bytes
       Frame opens_well_lit (fun image => image) nobody green 1%nat "hello" false
       Connection.__init__
     = (Ok tt, Connection.__init__).
Proof.
  assert (H : (exists e, not_json "hello" = Raise e)
              \/ not_json "hello" = Ok Connection.NotDict
              \/ (exists items,
                    not_json "hello" = Ok (Connection.Dict items)
                    /\ items "type"%string <> Connection.JString "frame"
                    /\ items "type"%string <> Connection.JString "ping"))
    by (left; eexists; reflexivity).
  split; [exact H |].
  exact (unreadable_message_is_ignored second_is_gone reply_goes_through not_json
           any_bytes Frame opens_well_lit (fun image => image) nobody green
           1%nat "hello" false Connection.__init__ H).
Defined.

(** A ping on a new server: one pong to the sender. *)
Lemma ping_is_answered_to_sender_witness :
  loads_ping "{}" = Ok (Connection.Dict ping_items)
  /\ ping_items "type" = Connection.JString "ping"
  /\ Connection.replied
       (snd (Connection.handle_message second_is_gone reply_goes_through loads_ping
               any_bytes Frame opens_well_lit (fun image => image) nobody green
               1%nat "{}" false Connection.__init__))
     = [(1%nat, {| Connection.reply_type := "pong" |})].
Proof.
  split; [reflexivity |]. split; [reflexivity |].
  rewrite (ping_is_answered_to_sender second_is_gone reply_goes_through loads_ping
             any_bytes Frame opens_well_lit (fun image => image) nobody green
             1%nat "{}" ping_items false Connection.__init__ eq_refl eq_refl).
  reflexivity.
Defined.

